(** * order_create.py: the order-placement pipeline against the Syrve API

    A shallow embedding of [src/order_create.py]: the six functions
    [get_access_token], [get_organizations], [get_terminal_groups],
    [get_available_restaurant_sections], [get_payment_types], [create_order]
    and the interactive [main], followed by the properties of the
    specification that hold of them.

    Python objects are values of [pyval]; a function that talks to the
    console, the log or the network is a computation in the monad [M], which
    threads the operator's remaining keyboard input, collects the events the
    code produces in program order and propagates Python exceptions. *)

From Stdlib Require Import ZArith List String Ascii Bool Lia.
From Stdlib Require Import PrimFloat SpecFloat FloatOps.
Import ListNotations.

Open Scope string_scope.
Open Scope list_scope.
Open Scope Z_scope.

Local Set Warnings "-register-all".

(** ** Python values *)

(** What [response.json()] yields, what [input()] returns and what the code
    builds from them.  A [PDict] lists the items of a dict whose keys are
    strings, in insertion order; [json.loads] keeps one item per key. *)
Inductive pyval : Type :=
| PNone
| PBool (b : bool)
| PInt (z : Z)
| PFloat (f : float)
| PStr (s : string)
| PList (l : list pyval)
| PDict (d : list (string * pyval)).

(** The exceptions the code can meet.  [HTTPError] is raised by
    [raise_for_status] only and carries the status and [response.text]. *)
Inductive exn : Type :=
| HTTPError (status : Z) (text : string)
| RequestException (msg : string)
| JSONDecodeError
| AttributeError
| TypeError
| ValueError
| KeyError
| IndexError
| OverflowError
| EOFError.

Inductive res (A : Type) : Type :=
| Ok (a : A)
| Raise (e : exn).
Arguments Ok {A} a.
Arguments Raise {A} e.

Definition rbind {A B} (r : res A) (k : A -> res B) : res B :=
  match r with
  | Ok a => k a
  | Raise e => Raise e
  end.

(** [bool(v)]: the test behind [if v:] and [if not v:]. *)
Definition truthy (v : pyval) : bool :=
  match v with
  | PNone => false
  | PBool b => b
  | PInt z => negb (z =? 0)
  | PFloat f => negb (PrimFloat.eqb f 0%float)
  | PStr s => negb (String.eqb s "")
  | PList l => match l with [] => false | _ => true end
  | PDict d => match d with [] => false | _ => true end
  end.

Fixpoint lookup (k : string) (d : list (string * pyval)) : option pyval :=
  match d with
  | [] => None
  | (k', v) :: d' => if String.eqb k k' then Some v else lookup k d'
  end.

(** [o.get(k, default)]; only a dict has the method. *)
Definition py_get (o : pyval) (k : string) (default : pyval) : res pyval :=
  match o with
  | PDict d => Ok (match lookup k d with Some v => v | None => default end)
  | _ => Raise AttributeError
  end.

(** *** Text

    A Python [str] is a sequence of code points.  A [string] of this file
    holds the UTF-8 encoding of one, a byte per [ascii]; this is how the
    Cyrillic literals of the script are written below.  [characters] cuts
    the bytes into the encodings of the single code points, so that the
    length of a string, indexing, iteration and white space count
    characters, as Python does, and not bytes. *)

Definition byte (c : ascii) : Z := Z.of_nat (nat_of_ascii c).

(** A continuation byte [10xxxxxx]: it never starts a character. *)
Definition is_continuation (c : ascii) : bool :=
  (128 <=? byte c) && (byte c <? 192).

Definition continues (s : string) : bool :=
  match s with
  | String c _ => is_continuation c
  | EmptyString => false
  end.

(** The characters of a string, each one as its bytes: a byte that is no
    continuation byte, with the continuation bytes that follow it. *)
Fixpoint characters (s : string) : list string :=
  match s with
  | EmptyString => []
  | String c s' =>
      match characters s' with
      | ch :: rest =>
          if continues ch then String c ch :: rest
          else String c EmptyString :: ch :: rest
      | [] => [String c EmptyString]
      end
  end.

(** The payload of the continuation bytes [l], appended to [acc]. *)
Fixpoint trailing (l : list ascii) (acc : Z) : option Z :=
  match l with
  | [] => Some acc
  | c :: l' =>
      if is_continuation c then trailing l' (acc * 64 + (byte c - 128))
      else None
  end.

Definition between (lo hi : Z) (n : option Z) : option Z :=
  match n with
  | Some n => if (lo <=? n) && (n <=? hi) then Some n else None
  | None => None
  end.

(** The code point one character encodes; [None] for bytes that are not
    the encoding of a code point (a stray continuation byte, a sequence cut
    short or longer than its code point needs). *)
Definition code_point (ch : string) : option Z :=
  match list_ascii_of_string ch with
  | [] => None
  | a :: l =>
      let a := byte a in
      match List.length l with
      | 0%nat => between 0 0x7F (Some a)
      | 1%nat =>
          if (0xC0 <=? a) && (a <? 0xE0)
          then between 0x80 0x7FF (trailing l (a - 0xC0)) else None
      | 2%nat =>
          if (0xE0 <=? a) && (a <? 0xF0)
          then between 0x800 0xFFFF (trailing l (a - 0xE0)) else None
      | 3%nat =>
          if (0xF0 <=? a) && (a <? 0xF8)
          then between 0x10000 0x10FFFF (trailing l (a - 0xF0)) else None
      | _ => None
      end
  end.

(** The one-character strings a string consists of. *)
Definition chars (s : string) : list pyval := map PStr (characters s).

(** The items a [for] loop (or [enumerate]) visits. *)
Definition py_iter (v : pyval) : res (list pyval) :=
  match v with
  | PList l => Ok l
  | PStr s => Ok (chars s)
  | PDict d => Ok (map (fun kv => PStr (fst kv)) d)
  | _ => Raise TypeError
  end.

(** [len(v)]. *)
Definition py_len (v : pyval) : res Z :=
  match v with
  | PList l => Ok (Z.of_nat (List.length l))
  | PStr s => Ok (Z.of_nat (List.length (characters s)))
  | PDict d => Ok (Z.of_nat (List.length d))
  | _ => Raise TypeError
  end.

Definition seq_index {A} (l : list A) (i : Z) : res A :=
  let n := Z.of_nat (List.length l) in
  let j := if i <? 0 then i + n else i in
  if (j <? 0) || (n <=? j) then Raise IndexError
  else match nth_error l (Z.to_nat j) with
       | Some a => Ok a
       | None => Raise IndexError
       end.

(** [v[i]] for an integer [i]; a dict from JSON has no integer key. *)
Definition py_index (v : pyval) (i : Z) : res pyval :=
  match v with
  | PList l => seq_index l i
  | PStr s => seq_index (chars s) i
  | PDict _ => Raise KeyError
  | _ => Raise TypeError
  end.

(** [float(z)] for an int: rounded to nearest even, [OverflowError] past the
    largest finite double. *)
Definition float_of_Z (z : Z) : res float :=
  match binary_normalize prec emax z 0 false with
  | S754_infinity _ => Raise OverflowError
  | sf => Ok (SF2Prim sf)
  end.

Definition as_number (v : pyval) : option (Z + float) :=
  match v with
  | PBool b => Some (inl (if b then 1 else 0))
  | PInt z => Some (inl z)
  | PFloat f => Some (inr f)
  | _ => None
  end.

(** [a + b]: concatenation of two lists or two strings, addition of numbers
    (a bool counts as 0 or 1), [TypeError] otherwise. *)
Definition py_add (a b : pyval) : res pyval :=
  match a, b with
  | PList l1, PList l2 => Ok (PList (l1 ++ l2))
  | PStr s1, PStr s2 => Ok (PStr (s1 ++ s2))
  | _, _ =>
      match as_number a, as_number b with
      | Some (inl x), Some (inl y) => Ok (PInt (x + y))
      | Some (inl x), Some (inr g) =>
          rbind (float_of_Z x) (fun f => Ok (PFloat (f + g)%float))
      | Some (inr f), Some (inl y) =>
          rbind (float_of_Z y) (fun g => Ok (PFloat (f + g)%float))
      | Some (inr f), Some (inr g) => Ok (PFloat (f + g)%float)
      | _, _ => Raise TypeError
      end
  end.

(** ** Strings *)

Definition nl : string := String (ascii_of_nat 10) EmptyString.

(** [ch.isspace()] for a character: the white space of ASCII (tab to
    carriage return, the four separators U+001C to U+001F and the blank) and
    the white space of Unicode past it. *)
Definition is_space (ch : string) : bool :=
  match code_point ch with
  | Some n =>
      (9 <=? n) && (n <=? 13) || (0x1C <=? n) && (n <=? 0x20) ||
      (n =? 0x85) || (n =? 0xA0) || (n =? 0x1680) ||
      (0x2000 <=? n) && (n <=? 0x200A) ||
      (n =? 0x2028) || (n =? 0x2029) || (n =? 0x202F) || (n =? 0x205F) ||
      (n =? 0x3000)
  | None => false
  end.

Fixpoint lstrip (l : list string) : list string :=
  match l with
  | ch :: l' => if is_space ch then lstrip l' else l
  | [] => []
  end.

Definition rstrip (l : list string) : list string := rev (lstrip (rev l)).

(** [s.strip()]: the white space at both ends is removed. *)
Definition strip (s : string) : string :=
  String.concat "" (rstrip (lstrip (characters s))).

(** ** Decimal literals

    [int(s)] and [float(s)] are builtins; the pipeline takes them from its
    environment (see [Env]).  [ascii_int] and [ascii_float] are the two
    builtins as CPython 3.11 has them, used to run the pipeline on concrete
    input.  Both first bring the text to ASCII: white space past ASCII
    becomes a blank and a decimal digit of any script the ASCII digit of its
    value.  They then skip the white space of C at both ends, which unlike
    [str.strip] does not include U+001C to U+001F, and take the rest for one
    literal. *)

(** [Py_ISSPACE]. *)
Definition is_c_space (c : ascii) : bool :=
  (9 <=? byte c) && (byte c <=? 13) || (byte c =? 32).

(** The digits zero of the scripts of Unicode 14.0; the digits one to nine
    of a script follow its zero. *)
Definition decimal_zeros : list Z :=
  [0x30; 0x660; 0x6F0; 0x7C0; 0x966; 0x9E6; 0xA66; 0xAE6; 0xB66; 0xBE6;
   0xC66; 0xCE6; 0xD66; 0xDE6; 0xE50; 0xED0; 0xF20; 0x1040; 0x1090; 0x17E0;
   0x1810; 0x1946; 0x19D0; 0x1A80; 0x1A90; 0x1B50; 0x1BB0; 0x1C40; 0x1C50;
   0xA620; 0xA8D0; 0xA900; 0xA9D0; 0xA9F0; 0xAA50; 0xABF0; 0xFF10; 0x104A0;
   0x10D30; 0x11066; 0x110F0; 0x11136; 0x111D0; 0x112F0; 0x11450; 0x114D0;
   0x11650; 0x116C0; 0x11730; 0x118E0; 0x11950; 0x11C50; 0x11D50; 0x11DA0;
   0x16A60; 0x16AC0; 0x16B50; 0x1D7CE; 0x1D7D8; 0x1D7E2; 0x1D7EC; 0x1D7F6;
   0x1E140; 0x1E2F0; 0x1E950; 0x1FBF0].

(** The value of the decimal digit with code point [n]. *)
Definition decimal_digit (n : Z) : option Z :=
  match find (fun z => (z <=? n) && (n <? z + 10)) decimal_zeros with
  | Some z => Some (n - z)
  | None => None
  end.

Definition ascii_of_Z (n : Z) : ascii := ascii_of_nat (Z.to_nat n).

(** What [int] and [float] read a character as; [None] for a character that
    cannot be part of a number. *)
Definition number_char (ch : string) : option ascii :=
  match code_point ch with
  | Some n =>
      if n <? 128 then Some (ascii_of_Z n)
      else if is_space ch then Some " "%char
      else
        match decimal_digit n with
        | Some d => Some (ascii_of_Z (48 + d))
        | None => None
        end
  | None => None
  end.

Fixpoint number_chars (l : list string) : option (list ascii) :=
  match l with
  | [] => Some []
  | ch :: l' =>
      match number_char ch, number_chars l' with
      | Some c, Some cs => Some (c :: cs)
      | _, _ => None
      end
  end.

Fixpoint skip_c_space (l : list ascii) : list ascii :=
  match l with
  | c :: l' => if is_c_space c then skip_c_space l' else l
  | [] => []
  end.

(** The text of a number, brought to ASCII and without the white space
    around it. *)
Definition number_text (s : string) : option (list ascii) :=
  match number_chars (characters s) with
  | Some l => Some (rev (skip_c_space (rev (skip_c_space l))))
  | None => None
  end.

Definition is_digit (c : ascii) : bool :=
  let n := nat_of_ascii c in ((48 <=? n) && (n <=? 57))%nat.

Definition digit_val (c : ascii) : Z := Z.of_nat (nat_of_ascii c) - 48.

(** A digit part: digits with single underscores between them.  Returns the
    digits read and the rest of the text. *)
Fixpoint digitpart (l : list ascii) : list ascii * list ascii :=
  match l with
  | c :: l' =>
      if is_digit c then
        let (ds, r) := digitpart l' in (c :: ds, r)
      else if Ascii.eqb c "_" then
        match l' with
        | c' :: _ =>
            if is_digit c' then
              match digitpart l' with
              | ([], _) => ([], l)
              | (ds, r) => (ds, r)
              end
            else ([], l)
        | [] => ([], l)
        end
      else ([], l)
  | [] => ([], [])
  end.

(** A digit part may not start with an underscore. *)
Definition digits (l : list ascii) : list ascii * list ascii :=
  match l with
  | c :: _ => if is_digit c then digitpart l else ([], l)
  | [] => ([], [])
  end.

Definition digits_val (ds : list ascii) : Z :=
  fold_left (fun acc c => 10 * acc + digit_val c) ds 0.

Definition sign (l : list ascii) : bool * list ascii :=
  match l with
  | c :: l' =>
      if Ascii.eqb c "-" then (true, l')
      else if Ascii.eqb c "+" then (false, l')
      else (false, l)
  | [] => (false, [])
  end.

(** [sys.get_int_max_str_digits()], as it is when nothing changes it. *)
Definition int_max_str_digits : nat := 4300.

(** [int(s)]: a sign and digits in base ten; a literal of more digits than
    the interpreter's limit is refused like a malformed one. *)
Definition ascii_int (s : string) : option Z :=
  match number_text s with
  | Some l =>
      let (neg, l) := sign l in
      match digits l with
      | ((_ :: _) as ds, []) =>
          if (List.length ds <=? int_max_str_digits)%nat
          then Some (if neg then - digits_val ds else digits_val ds)
          else None
      | _ => None
      end
  | None => None
  end.

(** The double nearest to [m * 10^e] (ties to even), for [m >= 0], with the
    sign [neg].  [10^lo <= m * 10^e < 10^hi] bounds the magnitude, so that
    the exact arithmetic below only runs on numbers of moderate size. *)
Definition decimal_to_float (neg : bool) (m e : Z) : float :=
  let lo := Z.log2 m * 3 / 10 + e in
  let hi := Z.log2 m / 3 + 1 + e in
  let sf :=
    if m =? 0 then S754_zero false
    else if 400 <? lo then S754_infinity false
    else if hi <? -400 then S754_zero false
    else if 0 <=? e then
      binary_normalize prec emax (m * 10 ^ e) 0 false
    else
      let d := 10 ^ (- e) in
      let k := Z.max 0 (Z.log2 d - Z.log2 m + 64) in
      let n := m * 2 ^ k in
      let q := n / d in
      let sticky := if n mod d =? 0 then 0 else 1 in
      binary_normalize prec emax (2 * q + sticky) (- k - 1) false in
  let f := SF2Prim sf in
  if neg then (- f)%float else f.

Definition lower (c : ascii) : ascii :=
  let n := nat_of_ascii c in
  if ((65 <=? n) && (n <=? 90))%nat then ascii_of_nat (n + 32) else c.

Definition exponent (l : list ascii) : option Z :=
  match l with
  | [] => Some 0
  | c :: l' =>
      if Ascii.eqb (lower c) "e" then
        let (neg, l'') := sign l' in
        match digits l'' with
        | ((_ :: _) as ds, []) => Some (if neg then - digits_val ds else digits_val ds)
        | _ => None
        end
      else None
  end.

(** A literal of [float]: infinity, not-a-number, or a decimal with an
    optional fraction and exponent. *)
Definition float_literal (l : list ascii) : option float :=
  let (neg, l) := sign l in
  let w := string_of_list_ascii (map lower l) in
  if String.eqb w "inf" || String.eqb w "infinity" then
    Some (if neg then neg_infinity else infinity)
  else if String.eqb w "nan" then Some nan
  else
    let (ip, r) := digits l in
    let '(fp, r') :=
      match r with
      | c :: r1 => if Ascii.eqb c "." then digits r1 else ([], r)
      | [] => ([], [])
      end in
    match ip ++ fp with
    | [] => None
    | ds =>
        match exponent r' with
        | Some e =>
            Some (decimal_to_float neg (digits_val ds)
                    (e - Z.of_nat (List.length fp)))
        | None => None
        end
    end.

(** [float(s)]. *)
Definition ascii_float (s : string) : option float :=
  match number_text s with
  | Some l => float_literal l
  | None => None
  end.

(** ** Effects *)

(** An f-string before rendering: literal text and the values formatted into
    it. *)
Inductive frag : Type :=
| Lit (s : string)
| Fmt (v : pyval)
| FmtExn (e : exn).

Definition fstring : Type := list frag.

Inductive http_method : Type := GET | POST.

(** A call of [requests.get] or [requests.post]. *)
Record request : Type := {
  req_method : http_method;
  req_url : string;
  req_headers : list (string * fstring);
  req_json : option pyval;
  req_timeout : option Z
}.

(** [json] is what [response.json()] returns, [None] when it raises. *)
Record response : Type := {
  status_code : Z;
  text : string;
  json : option pyval
}.

(** What the transport does with a request: it fails (connection error,
    timeout, ...) or hands back the service's response. *)
Inductive http_outcome : Type :=
| Fails (msg : string)
| Responds (r : response).

(** What a run leaves behind, in program order. *)
Inductive event : Type :=
| Print (msg : fstring)
| Pprint (v : pyval)
| LogInfo (msg : fstring)
| LogError (msg : fstring)
| Input (prompt : string) (answer : option string)
| Http (rq : request).

(** Everything outside the script: the builtins [int] and [float] on a
    string ([None] for [ValueError]), the remote service behind the HTTP
    client, the identifiers [uuid.uuid4()] hands out, and the [API_LOGIN]
    read from the process environment.  A run never issues the same request
    twice, so the service is a function of the request. *)
Record Env : Type := {
  py_int : string -> option Z;
  py_float : string -> option float;
  http : request -> http_outcome;
  uuid4 : nat -> string;
  API_LOGIN : pyval
}.

(** The operator's remaining lines of input and the number of identifiers
    drawn so far. *)
Record state : Type := {
  stdin : list string;
  drawn : nat
}.

Record out (A : Type) : Type := {
  value : res A;
  after : state;
  events : list event
}.
Arguments value {A} o.
Arguments after {A} o.
Arguments events {A} o.

Definition M (A : Type) : Type := state -> out A.

Definition ret {A} (a : A) : M A :=
  fun st => {| value := Ok a; after := st; events := [] |}.

Definition raise {A} (e : exn) : M A :=
  fun st => {| value := Raise e; after := st; events := [] |}.

Definition bind {A B} (m : M A) (k : A -> M B) : M B :=
  fun st =>
    match m st with
    | {| value := Ok a; after := st1; events := t1 |} =>
        match k a st1 with
        | {| value := v; after := st2; events := t2 |} =>
            {| value := v; after := st2; events := t1 ++ t2 |}
        end
    | {| value := Raise e; after := st1; events := t1 |} =>
        {| value := Raise e; after := st1; events := t1 |}
    end.

(** [try: m  except Exception as e: h e]. *)
Definition try_except {A} (m : M A) (h : exn -> M A) : M A :=
  fun st =>
    match m st with
    | {| value := Ok a; after := st1; events := t1 |} =>
        {| value := Ok a; after := st1; events := t1 |}
    | {| value := Raise e; after := st1; events := t1 |} =>
        match h e st1 with
        | {| value := v; after := st2; events := t2 |} =>
            {| value := v; after := st2; events := t1 ++ t2 |}
        end
    end.

Definition lift {A} (r : res A) : M A :=
  match r with
  | Ok a => ret a
  | Raise e => raise e
  end.

Definition emit (e : event) : M unit :=
  fun st => {| value := Ok tt; after := st; events := [e] |}.

Declare Scope py_scope.
Delimit Scope py_scope with py.
Notation "x <- m ;; k" := (bind m (fun x => k))
  (at level 61, m at next level, right associativity) : py_scope.
Notation "m ;; k" := (bind m (fun _ => k))
  (at level 61, right associativity) : py_scope.
Open Scope py_scope.

Definition print (msg : fstring) : M unit := emit (Print msg).
Definition pprint (v : pyval) : M unit := emit (Pprint v).
Definition log_info (msg : fstring) : M unit := emit (LogInfo msg).
Definition log_error (msg : fstring) : M unit := emit (LogError msg).

(** [input(prompt)]: the next line of the operator, [EOFError] at the end
    of input. *)
Definition input (prompt : string) : M string :=
  fun st =>
    match stdin st with
    | s :: rest =>
        {| value := Ok s;
           after := {| stdin := rest; drawn := drawn st |};
           events := [Input prompt (Some s)] |}
    | [] =>
        {| value := Raise EOFError; after := st;
           events := [Input prompt None] |}
    end.

Fixpoint for_each {A} (l : list A) (body : A -> M unit) : M unit :=
  match l with
  | [] => ret tt
  | x :: l' => body x ;; for_each l' body
  end.

(** A loop that updates local variables [s]. *)
Fixpoint for_fold {A S} (l : list A) (s : S) (body : S -> A -> M S) : M S :=
  match l with
  | [] => ret s
  | x :: l' => s' <- body s x ;; for_fold l' s' body
  end.

Fixpoint fold_res {A S} (l : list A) (s : S) (body : S -> A -> res S)
  : res S :=
  match l with
  | [] => Ok s
  | x :: l' => rbind (body s x) (fun s' => fold_res l' s' body)
  end.

(** [enumerate(l, start)]. *)
Fixpoint enumerate {A} (start : Z) (l : list A) : list (Z * A) :=
  match l with
  | [] => []
  | x :: l' => (start, x) :: enumerate (start + 1) l'
  end.

(** ** The script *)

Section Pipeline.

Variable E : Env.

(** [str(uuid.uuid4())]. *)
Definition new_uuid : M pyval :=
  fun st =>
    {| value := Ok (PStr (uuid4 E (drawn st)));
       after := {| stdin := stdin st; drawn := S (drawn st) |};
       events := [] |}.

(** [requests.get] and [requests.post]: the request goes out and the
    transport's outcome comes back. *)
Definition send (rq : request) : M response :=
  emit (Http rq) ;;
  match http E rq with
  | Fails msg => raise (RequestException msg)
  | Responds r => ret r
  end.

Definition get_request (url : string) (headers : list (string * fstring))
  : request :=
  {| req_method := GET; req_url := url; req_headers := headers;
     req_json := None; req_timeout := None |}.

Definition post_request (url : string) (headers : list (string * fstring))
    (payload : pyval) (timeout : option Z) : request :=
  {| req_method := POST; req_url := url; req_headers := headers;
     req_json := Some payload; req_timeout := timeout |}.

(** The statuses [raise_for_status] raises for: client errors (4xx) and
    server errors (5xx). *)
Definition error_status (code : Z) : bool := (400 <=? code) && (code <? 600).

(** [response.raise_for_status()]. *)
Definition raise_for_status (r : response) : M unit :=
  if error_status (status_code r)
  then raise (HTTPError (status_code r) (text r))
  else ret tt.

(** [response.json()]. *)
Definition response_json (r : response) : M pyval :=
  match json r with
  | Some data => ret data
  | None => raise JSONDecodeError
  end.

(** The two [except] clauses every request function ends with: the message
    is logged and printed, and control falls through to the function's last
    [return]. *)
Definition report (http_msg other_msg : string) (err : exn) : M unit :=
  match err with
  | HTTPError _ body =>
      let msg := [Lit http_msg; FmtExn err; Lit " - Ответ: "; Fmt (PStr body)] in
      log_error msg ;; print msg
  | _ =>
      let msg := [Lit other_msg; FmtExn err] in
      log_error msg ;; print msg
  end.

Definition bearer (token : pyval) : string * fstring :=
  ("Authorization", [Lit "Bearer "; Fmt token]).

Definition content_json : string * fstring :=
  ("Content-Type", [Lit "application/json"]).

Definition access_token_url := "https://api-eu.syrve.live/api/1/access_token".
Definition organizations_url := "https://api-eu.syrve.live/api/1/organizations".
Definition terminal_groups_url := "https://api-eu.syrve.live/api/1/terminal_groups".
Definition sections_url :=
  "https://api-eu.syrve.live/api/1/reserve/available_restaurant_sections".
Definition payment_types_url := "https://api-eu.syrve.live/api/1/payment_types".
Definition order_create_url := "https://api-eu.syrve.live/api/1/order/create".

(** The request of lines 23-28. *)
Definition access_token_request (api_login : pyval) : request :=
  post_request access_token_url [content_json]
    (PDict [("apiLogin", api_login)]) None.

(** The request of lines 52-56. *)
Definition organizations_request (token : pyval) : request :=
  get_request organizations_url [bearer token].

(** [get_access_token], lines 19-45. *)
Definition get_access_token (api_login : pyval) : M pyval :=
  try_except
    (response <- send (access_token_request api_login) ;;
     raise_for_status response ;;
     data <- response_json response ;;
     token <- lift (py_get data "token" PNone) ;;
     if negb (truthy token) then
       log_error [Lit "Не удалось получить токен из ответа."] ;;
       print [Lit "Не удалось получить токен из ответа."] ;;
       ret PNone
     else
       log_info [Lit "Получен токен доступа: "; Fmt token] ;;
       print [Lit "Получен токен доступа: "; Fmt token] ;;
       ret token)
    (fun err =>
       report "HTTP ошибка: " "Произошла ошибка: " err ;;
       ret PNone).

(** [get_organizations], lines 48-68. *)
Definition get_organizations (token : pyval) : M pyval :=
  try_except
    (response <- send (organizations_request token) ;;
     raise_for_status response ;;
     data <- response_json response ;;
     organizations <- lift (py_get data "organizations" (PList [])) ;;
     n <- lift (py_len organizations) ;;
     log_info [Lit "Получено организаций: "; Fmt (PInt n)] ;;
     ret organizations)
    (fun err =>
       report "HTTP ошибка при получении организаций: "
              "Произошла ошибка при получении организаций: " err ;;
       ret (PList [])).

(** The body of the inner loop of [get_terminal_groups], lines 98-105. *)
Definition add_item (organization_id : pyval) (terminal_groups : list pyval)
    (item : pyval) : res (list pyval) :=
  rbind (py_get item "id" PNone) (fun tg_id =>
  rbind (py_get item "name" (PStr "NoName")) (fun tg_name =>
  Ok (if truthy tg_id
      then terminal_groups ++
           [PDict [("id", tg_id); ("name", tg_name);
                   ("organizationId", organization_id)]]
      else terminal_groups))).

(** The body of the outer loop, lines 95-105. *)
Definition add_block (terminal_groups : list pyval) (group_block : pyval)
  : res (list pyval) :=
  rbind (py_get group_block "items" (PList [])) (fun items =>
  rbind (py_get group_block "organizationId" PNone) (fun organization_id =>
  rbind (py_iter items) (fun items =>
  fold_res items terminal_groups (add_item organization_id)))).

(** Lines 93-105. *)
Definition collect_groups (terminal_groups_data : pyval) : res (list pyval) :=
  rbind (py_iter terminal_groups_data) (fun blocks =>
  fold_res blocks [] add_block).

(** The request of lines 75-87. *)
Definition terminal_groups_request (token organization_ids : pyval) : request :=
  post_request terminal_groups_url [bearer token; content_json]
    (PDict [("organizationIds", organization_ids);
            ("includeDisabled", PBool true);
            ("returnExternalData", PList [PStr "string"])])
    None.

(** [get_terminal_groups], lines 71-114. *)
Definition get_terminal_groups (token organization_ids : pyval) : M pyval :=
  try_except
    (response <- send (terminal_groups_request token organization_ids) ;;
     raise_for_status response ;;
     data <- response_json response ;;
     active <- lift (py_get data "terminalGroups" (PList [])) ;;
     sleeping <- lift (py_get data "terminalGroupsInSleep" (PList [])) ;;
     terminal_groups_data <- lift (py_add active sleeping) ;;
     terminal_groups <- lift (collect_groups terminal_groups_data) ;;
     log_info [Lit "Получено терминальных групп: ";
               Fmt (PInt (Z.of_nat (List.length terminal_groups)))] ;;
     ret (PList terminal_groups))
    (fun err =>
       report "HTTP ошибка при получении терминальных групп: "
              "Произошла ошибка при получении терминальных групп: " err ;;
       ret (PList [])).

(** The request of lines 121-133. *)
Definition sections_request (token terminal_group_ids return_schema revision : pyval)
  : request :=
  post_request sections_url [bearer token; content_json]
    (PDict [("terminalGroupIds", terminal_group_ids);
            ("returnSchema", return_schema);
            ("revision", revision)])
    (Some 10).

(** [get_available_restaurant_sections], lines 117-145. *)
Definition get_available_restaurant_sections
    (token terminal_group_ids return_schema revision : pyval) : M pyval :=
  try_except
    (response <- send (sections_request token terminal_group_ids
                         return_schema revision) ;;
     raise_for_status response ;;
     data <- response_json response ;;
     restaurant_sections <- lift (py_get data "restaurantSections" (PList [])) ;;
     n <- lift (py_len restaurant_sections) ;;
     log_info [Lit "Получено секций ресторанов: "; Fmt (PInt n)] ;;
     ret restaurant_sections)
    (fun err =>
       report "HTTP ошибка при получении секций ресторанов: "
              "Произошла ошибка при получении секций ресторанов: " err ;;
       ret (PList [])).

(** The request of lines 152-162. *)
Definition payment_types_request (token organization_ids : pyval) : request :=
  post_request payment_types_url [bearer token; content_json]
    (PDict [("organizationIds", organization_ids)])
    (Some 10).

(** [get_payment_types], lines 148-174. *)
Definition get_payment_types (token organization_ids : pyval) : M pyval :=
  try_except
    (response <- send (payment_types_request token organization_ids) ;;
     raise_for_status response ;;
     data <- response_json response ;;
     payment_types <- lift (py_get data "paymentTypes" (PList [])) ;;
     n <- lift (py_len payment_types) ;;
     log_info [Lit "Получено типов оплаты: "; Fmt (PInt n)] ;;
     ret payment_types)
    (fun err =>
       report "HTTP ошибка при получении типов оплаты: "
              "Произошла ошибка при получении типов оплаты: " err ;;
       ret (PList [])).

(** The request body of [create_order], lines 195-241. *)
Definition order_payload (order_id position_id : pyval)
    (organization_id terminal_group_id table_id customer_name customer_phone
     product_id product_price product_quantity payment_type_id payment_sum
     : pyval) : pyval :=
  PDict [
    ("organizationId", organization_id);
    ("terminalGroupId", terminal_group_id);
    ("order", PDict [
       ("id", order_id);
       ("tableIds", PList [table_id]);
       ("customer", PDict [("name", customer_name); ("type", PStr "regular")]);
       ("phone", customer_phone);
       ("items", PList [
          PDict [("positionId", position_id);
                 ("productId", product_id);
                 ("type", PStr "Product");
                 ("price", product_price);
                 ("amount", product_quantity)]]);
       ("payments", PList [
          PDict [("paymentTypeKind", PStr "Cash");
                 ("sum", payment_sum);
                 ("paymentTypeId", payment_type_id);
                 ("isProcessedExternally", PBool false);
                 ("isFiscalizedExternally", PBool false);
                 ("isPrepay", PBool false)]])]);
    ("createOrderSettings", PDict [
       ("servicePrint", PBool false);
       ("transportToFrontTimeout", PInt 15);
       ("checkStopList", PBool false)])].

(** The request of lines 185-189 and 244. *)
Definition order_request (token payload : pyval) : request :=
  post_request order_create_url [bearer token; content_json] payload (Some 15).

(** [create_order], lines 177-258. *)
Definition create_order
    (token organization_id terminal_group_id table_id customer_name
     customer_phone product_id product_price product_quantity payment_type_id
     payment_sum : pyval) : M pyval :=
  order_id <- new_uuid ;;
  position_id <- new_uuid ;;
  let payload :=
    order_payload order_id position_id organization_id terminal_group_id
      table_id customer_name customer_phone product_id product_price
      product_quantity payment_type_id payment_sum in
  try_except
    (response <- send (order_request token payload) ;;
     raise_for_status response ;;
     data <- response_json response ;;
     log_info [Lit "Заказ создан успешно. Ответ: "; Fmt data] ;;
     print [Lit (nl ++ "--- Ответ сервера при создании заказа ---")] ;;
     pprint data ;;
     ret data)
    (fun err =>
       report "HTTP ошибка при создании заказа: "
              "Произошла ошибка при создании заказа: " err ;;
       ret (PDict [])).

(** *** [main], lines 261-426

    [main] is one function that returns early at every failed step.  It is
    written here as a chain of stages, each ending in the next one or in the
    message of an early [return]; a stage takes the local variables that are
    live where it starts. *)

(** [s.strip()] is non-empty. *)
Definition nonblank (s : string) : bool := truthy (PStr (strip s)).

(** Lines 407-426: step 9, the submission. *)
Definition main_submit
    (token organization_id terminal_group_id table_id payment_type_id : pyval)
    (customer_name customer_phone product_id : string)
    (product_price product_quantity payment_sum : float) : M unit :=
  print [Lit (nl ++ "==== ОТПРАВЛЯЕМ ЗАПРОС НА СОЗДАНИЕ ЗАКАЗА ====")] ;;
  result <- create_order token organization_id terminal_group_id table_id
              (PStr customer_name) (PStr customer_phone) (PStr product_id)
              (PFloat product_price) (PFloat product_quantity)
              payment_type_id (PFloat payment_sum) ;;
  if truthy result then
    print [Lit (nl ++ "Создание заказа завершено. См. подробности выше.")]
  else
    print [Lit (nl ++ "Не удалось создать заказ.")].

(** Lines 395-405: step 8, the payment sum. *)
Definition main_payment_sum
    (token organization_id terminal_group_id table_id payment_type_id : pyval)
    (customer_name customer_phone product_id : string)
    (product_price product_quantity : float) : M unit :=
  let submit :=
    main_submit token organization_id terminal_group_id table_id
      payment_type_id customer_name customer_phone product_id product_price
      product_quantity in
  payment_sum_input <-
    input (nl ++ "Введите сумму платежа (или Enter для автоподстановки цены): ") ;;
  if nonblank payment_sum_input then
    match py_float E payment_sum_input with
    | Some payment_sum => submit payment_sum
    | None =>
        print [Lit "Некорректная сумма. Будет рассчитана автоматически."] ;;
        submit (product_price * product_quantity)%float
    end
  else
    submit (product_price * product_quantity)%float.

(** Lines 381-393: step 7, the product, its price and its quantity. *)
Definition main_product
    (token organization_id terminal_group_id table_id payment_type_id : pyval)
    (customer_name customer_phone : string) : M unit :=
  product_id <- input (nl ++ "Введите UUID товара (productId): ") ;;
  if negb (nonblank product_id) then
    print [Lit "productId обязателен для добавления позиции в заказ."]
  else
    price_input <- input "Введите цену за единицу товара: " ;;
    match py_float E price_input with
    | None => print [Lit "Цена или количество введены некорректно."]
    | Some product_price =>
        quantity_input <-
          input "Введите количество (например, 1, 2.5 и т.п.): " ;;
        match py_float E quantity_input with
        | None => print [Lit "Цена или количество введены некорректно."]
        | Some product_quantity =>
            main_payment_sum token organization_id terminal_group_id table_id
              payment_type_id customer_name customer_phone product_id
              product_price product_quantity
        end
    end.

(** Lines 374-379: step 6, the customer. *)
Definition main_customer
    (token organization_id terminal_group_id table_id payment_type_id : pyval)
    : M unit :=
  customer_name <-
    input (nl ++ "Введите имя клиента (необязательно, Enter = 'Guest'): ") ;;
  let customer_name :=
    if negb (nonblank customer_name) then "Guest" else customer_name in
  customer_phone <-
    input "Введите телефон клиента (необязательно, Enter = без телефона): " ;;
  main_product token organization_id terminal_group_id table_id
    payment_type_id customer_name customer_phone.

(** [payment_types[0].get('id')]. *)
Definition first_payment_type (payment_types : pyval) : M pyval :=
  pt <- lift (py_index payment_types 0) ;;
  lift (py_get pt "id" PNone).

(** Lines 353-355: the payment types are listed. *)
Definition show_payment_types (payment_types : pyval) : M unit :=
  print [Lit (nl ++ "Доступные типы оплат:")] ;;
  pts <- lift (py_iter payment_types) ;;
  for_each (enumerate 1 pts) (fun '(idx, pt) =>
    name <- lift (py_get pt "name" PNone) ;;
    kind <- lift (py_get pt "paymentTypeKind" PNone) ;;
    id <- lift (py_get pt "id" PNone) ;;
    print [Fmt (PInt idx); Lit ". "; Fmt name; Lit " (kind: "; Fmt kind;
           Lit ") (ID: "; Fmt id; Lit ")"]).

Definition payment_type_prompt : string :=
  nl ++ "Введите номер типа оплаты (или Enter для пропуска, тогда возьмём 1-й): ".

(** Lines 353-369: the operator picks one of the payment types. *)
Definition choose_payment_type
    (token organization_id terminal_group_id table_id payment_types : pyval)
    : M unit :=
  let continue :=
    main_customer token organization_id terminal_group_id table_id in
  show_payment_types payment_types ;;
  pt_index <- input payment_type_prompt ;;
  if nonblank pt_index then
    match py_int E pt_index with
    | Some pt_index =>
        n <- lift (py_len payment_types) ;;
        if (pt_index <? 1) || (n <? pt_index) then
          print [Lit "Некорректный номер типа оплаты."]
        else
          pt <- lift (py_index payment_types (pt_index - 1)) ;;
          payment_type_id <- lift (py_get pt "id" PNone) ;;
          continue payment_type_id
    | None =>
        print [Lit "Введено некорректное значение, будет использован первый тип оплаты."] ;;
        payment_type_id <- first_payment_type payment_types ;;
        continue payment_type_id
    end
  else
    payment_type_id <- first_payment_type payment_types ;;
    continue payment_type_id.

(** Lines 350-372: step 5, the payment type. *)
Definition main_payment_types
    (token organization_id terminal_group_id table_id : pyval) : M unit :=
  payment_types <- get_payment_types token (PList [organization_id]) ;;
  if truthy payment_types then
    choose_payment_type token organization_id terminal_group_id table_id
      payment_types
  else
    print [Lit (nl ++ "Не удалось получить типы оплат или список пуст. Зададим paymentTypeId вручную!")] ;;
    payment_type_id <- input "Введите UUID типа оплаты (paymentTypeId): " ;;
    main_customer token organization_id terminal_group_id table_id
      (PStr payment_type_id).

(** [table_dict]: the numbered tables, keyed by their number. *)
Definition table_map : Type := list (Z * pyval).

Fixpoint table_set (d : table_map) (k : Z) (v : pyval) : table_map :=
  match d with
  | [] => [(k, v)]
  | (k', v') :: d' =>
      if k =? k' then (k, v) :: d' else (k', v') :: table_set d' k v
  end.

Fixpoint table_get (d : table_map) (k : Z) : res pyval :=
  match d with
  | [] => Raise KeyError
  | (k', v) :: d' => if k =? k' then Ok v else table_get d' k
  end.

Definition table_prompt : string := nl ++ "Введите номер стола: ".

(** Lines 338-348: the operator picks a table. *)
Definition choose_table
    (token organization_id terminal_group_id : pyval) (table_dict : table_map)
    : M unit :=
  table_index <- input table_prompt ;;
  match py_int E table_index with
  | Some table_index =>
      if (table_index <? 1) || (Z.of_nat (List.length table_dict) <? table_index)
      then print [Lit "Некорректный номер стола."]
      else
        table_id <- lift (table_get table_dict table_index) ;;
        main_payment_types token organization_id terminal_group_id table_id
  | None => print [Lit "Пожалуйста, введите целое число."]
  end.

(** Lines 327-332: one table of a section is listed and numbered. *)
Definition list_table (vars : table_map * Z) (tbl : pyval)
  : M (table_map * Z) :=
  let (table_dict, counter) := vars in
  table_id <- lift (py_get tbl "id" PNone) ;;
  table_name <- lift (py_get tbl "name" PNone) ;;
  print [Fmt (PInt counter); Lit ". "; Fmt table_name; Lit " (ID: ";
         Fmt table_id; Lit ")"] ;;
  ret (table_set table_dict counter table_id, counter + 1).

(** Lines 323-332: one section is listed. *)
Definition list_section (vars : table_map * Z) (section : pyval)
  : M (table_map * Z) :=
  section_name <- lift (py_get section "name" (PStr "NoSectionName")) ;;
  tables <- lift (py_get section "tables" (PList [])) ;;
  print [Lit (nl ++ "--- Секция: "); Fmt section_name; Lit " ---"] ;;
  tables <- lift (py_iter tables) ;;
  for_fold tables vars list_table.

(** Lines 314-336: step 4, the tables of the terminal group. *)
Definition main_tables (token organization_id terminal_group_id : pyval)
  : M unit :=
  sections <- get_available_restaurant_sections token
                (PList [terminal_group_id]) (PBool false) (PInt 0) ;;
  if negb (truthy sections) then
    print [Lit "Не удалось получить секции ресторанов."]
  else
    print [Lit (nl ++ "Доступные столы:")] ;;
    sections <- lift (py_iter sections) ;;
    vars <- for_fold sections ([], 1) list_section ;;
    let table_dict := fst vars in
    match table_dict with
    | [] => print [Lit "Нет доступных столов."]
    | _ => choose_table token organization_id terminal_group_id table_dict
    end.

(** Lines 297-299: the terminal groups are listed. *)
Definition show_terminal_groups (terminal_groups : pyval) : M unit :=
  print [Lit (nl ++ "Доступные терминальные группы:")] ;;
  tgs <- lift (py_iter terminal_groups) ;;
  for_each (enumerate 1 tgs) (fun '(idx, tg) =>
    name <- lift (py_get tg "name" PNone) ;;
    id <- lift (py_get tg "id" PNone) ;;
    print [Fmt (PInt idx); Lit ". "; Fmt name; Lit " (ID: "; Fmt id; Lit ")"]).

Definition terminal_group_prompt : string :=
  nl ++ "Введите номер терминальной группы: ".

(** Lines 297-312: the operator picks a terminal group. *)
Definition choose_terminal_group
    (token organization_id terminal_groups : pyval) : M unit :=
  show_terminal_groups terminal_groups ;;
  tg_index <- input terminal_group_prompt ;;
  match py_int E tg_index with
  | Some tg_index =>
      n <- lift (py_len terminal_groups) ;;
      if (tg_index <? 1) || (n <? tg_index) then
        print [Lit "Некорректный номер терминальной группы."]
      else
        tg <- lift (py_index terminal_groups (tg_index - 1)) ;;
        terminal_group_id <- lift (py_get tg "id" PNone) ;;
        main_tables token organization_id terminal_group_id
  | None => print [Lit "Пожалуйста, введите целое число."]
  end.

(** Lines 291-295: step 3, the terminal groups of the organization. *)
Definition main_terminal_groups (token organization_id : pyval) : M unit :=
  terminal_groups <- get_terminal_groups token (PList [organization_id]) ;;
  if negb (truthy terminal_groups) then
    print [Lit "Не удалось получить терминальные группы."]
  else
    choose_terminal_group token organization_id terminal_groups.

(** Lines 274-276: the organizations are listed. *)
Definition show_organizations (organizations : pyval) : M unit :=
  print [Lit (nl ++ "Список доступных организаций:")] ;;
  orgs <- lift (py_iter organizations) ;;
  for_each (enumerate 1 orgs) (fun '(idx, org) =>
    name <- lift (py_get org "name" PNone) ;;
    id <- lift (py_get org "id" PNone) ;;
    print [Fmt (PInt idx); Lit ". "; Fmt name; Lit " (ID: "; Fmt id; Lit ")"]).

Definition organization_prompt : string := nl ++ "Введите номер организации: ".

(** Lines 274-289: the operator picks an organization. *)
Definition choose_organization (token organizations : pyval) : M unit :=
  show_organizations organizations ;;
  org_index <- input organization_prompt ;;
  match py_int E org_index with
  | Some org_index =>
      n <- lift (py_len organizations) ;;
      if (org_index <? 1) || (n <? org_index) then
        print [Lit "Некорректный номер организации."]
      else
        org <- lift (py_index organizations (org_index - 1)) ;;
        organization_id <- lift (py_get org "id" PNone) ;;
        main_terminal_groups token organization_id
  | None => print [Lit "Пожалуйста, введите целое число."]
  end.

(** Lines 268-272: step 2, the organizations. *)
Definition main_organizations (token : pyval) : M unit :=
  organizations <- get_organizations token ;;
  if negb (truthy organizations) then
    print [Lit "Не удалось получить список организаций."]
  else
    choose_organization token organizations.

(** Lines 261-266: step 1, the access token, and from there the whole run. *)
Definition main : M unit :=
  token <- get_access_token (API_LOGIN E) ;;
  if negb (truthy token) then
    print [Lit "Не удалось получить токен доступа."]
  else
    main_organizations token.

End Pipeline.

(** ** A service to run the script against

    One organization with an active and a sleeping terminal group, one hall
    with two tables and two payment types, the second one a card. *)
Module Demo.

Definition ok (data : pyval) : http_outcome :=
  Responds {| status_code := 200; text := ""; json := Some data |}.

Definition status (code : Z) (body : string) (data : option pyval)
  : http_outcome :=
  Responds {| status_code := code; text := body; json := data |}.

Definition organizations : pyval :=
  PDict [("organizations",
          PList [PDict [("id", PStr "org-1"); ("name", PStr "Cafe")]])].

Definition terminal_groups : pyval :=
  PDict [("terminalGroups",
          PList [PDict [("organizationId", PStr "org-1");
                        ("items", PList [PDict [("id", PStr "tg-A");
                                                ("name", PStr "Front")]])]]);
         ("terminalGroupsInSleep",
          PList [PDict [("organizationId", PStr "org-1");
                        ("items", PList [PDict [("id", PStr "tg-B");
                                                ("name", PStr "Back")]])]])].

Definition sections : pyval :=
  PDict [("restaurantSections",
          PList [PDict [("name", PStr "Hall");
                        ("tables", PList [PDict [("id", PStr "t-1"); ("name", PStr "1")];
                                          PDict [("id", PStr "t-2"); ("name", PStr "2")]])]])].

Definition payment_types : pyval :=
  PDict [("paymentTypes",
          PList [PDict [("id", PStr "pt-cash"); ("name", PStr "Cash");
                        ("paymentTypeKind", PStr "Cash")];
                 PDict [("id", PStr "pt-card"); ("name", PStr "Visa");
                        ("paymentTypeKind", PStr "Card")]])].

Definition created : pyval :=
  PDict [("orderInfo", PDict [("creationStatus", PStr "InProgress")])].

(** The service, endpoint by endpoint. *)
Definition service (token_reply groups_reply sections_reply types_reply
                    order_reply : http_outcome) (rq : request) : http_outcome :=
  let u := req_url rq in
  if String.eqb u access_token_url then token_reply
  else if String.eqb u organizations_url then ok organizations
  else if String.eqb u terminal_groups_url then groups_reply
  else if String.eqb u sections_url then sections_reply
  else if String.eqb u payment_types_url then types_reply
  else if String.eqb u order_create_url then order_reply
  else status 404 "" None.

Definition env_with (reply : request -> http_outcome) : Env :=
  {| py_int := ascii_int;
     py_float := ascii_float;
     http := reply;
     uuid4 := fun n => if Nat.eqb n 0 then "uuid-0" else "uuid-1";
     API_LOGIN := PStr "login" |}.

Definition env : Env :=
  env_with (service (ok (PDict [("token", PStr "T")])) (ok terminal_groups)
              (ok sections) (ok payment_types) (ok created)).

Definition keyboard (lines : list string) : state :=
  {| stdin := lines; drawn := 0 |}.

(** The no-break space U+00A0, in UTF-8. *)
Definition nbsp : string :=
  String (ascii_of_nat 194) (String (ascii_of_nat 160) EmptyString).

End Demo.

(** ** Reading a run *)

(** The requests a run issued, in order. *)
Definition requests (t : list event) : list request :=
  flat_map (fun e => match e with Http rq => [rq] | _ => [] end) t.

(** The operator's answers a run consumed, with their prompts. *)
Definition answers (t : list event) : list (string * option string) :=
  flat_map (fun e => match e with Input p a => [(p, a)] | _ => [] end) t.

(** The order documents a run submitted: the bodies of its requests to the
    order-creation endpoint. *)
Definition documents (t : list event) : list pyval :=
  flat_map (fun rq =>
              if String.eqb (req_url rq) order_create_url
              then match req_json rq with Some body => [body] | None => [] end
              else [])
           (requests t).

(** The error entries a run wrote to the log. *)
Definition logged_errors (t : list event) : list fstring :=
  flat_map (fun e => match e with LogError m => [m] | _ => [] end) t.

(** Every event a computation produces satisfies [P], whatever the state it
    starts from. *)
Definition emits_only {A} (P : event -> Prop) (m : M A) : Prop :=
  forall st, Forall P (events (m st)).

(** [e] is no request at all. *)
Definition offline (e : event) : Prop :=
  match e with Http _ => False | _ => True end.

(** If [e] is a request to the order-creation endpoint, its body satisfies
    [Q]. *)
Definition submits (Q : pyval -> Prop) (e : event) : Prop :=
  match e with
  | Http rq =>
      req_url rq = order_create_url ->
      exists body, req_json rq = Some body /\ Q body
  | _ => True
  end.

(** ** Reading a document *)

(** The value under key [k], if [v] is a dict that has the key. *)
Definition at_key (k : string) (v : pyval) : option pyval :=
  match v with
  | PDict d => lookup k d
  | _ => None
  end.

(** A field of the document's [order]. *)
Definition order_field (k : string) (body : pyval) : option pyval :=
  match at_key "order" body with
  | Some order => at_key k order
  | None => None
  end.

(** The single entry of a one-element list field of the order. *)
Definition only_entry (k : string) (body : pyval) : option pyval :=
  match order_field k body with
  | Some (PList [x]) => Some x
  | _ => None
  end.

Definition the_item : pyval -> option pyval := only_entry "items".
Definition the_payment : pyval -> option pyval := only_entry "payments".

(** The payment is a cash payment that nothing outside the script handled. *)
Definition cash_payment (p : pyval) : Prop :=
  at_key "paymentTypeKind" p = Some (PStr "Cash") /\
  at_key "isProcessedExternally" p = Some (PBool false) /\
  at_key "isFiscalizedExternally" p = Some (PBool false) /\
  at_key "isPrepay" p = Some (PBool false).

(** The document has exactly one payment, and it is a cash payment. *)
Definition pays_cash (body : pyval) : Prop :=
  exists p, the_payment body = Some p /\ cash_payment p.

(** A field of the document's single payment. *)
Definition payment_field (k : string) (body : pyval) : option pyval :=
  match the_payment body with
  | Some p => at_key k p
  | None => None
  end.

(** A field of the document's single item. *)
Definition item_field (k : string) (body : pyval) : option pyval :=
  match the_item body with
  | Some it => at_key k it
  | None => None
  end.

(** The document carries price [p] and amount [q] in its item. *)
Definition priced (p q : float) (body : pyval) : Prop :=
  item_field "price" body = Some (PFloat p) /\
  item_field "amount" body = Some (PFloat q).

(** The document's [phone] field is present and holds [v]. *)
Definition phone_is (v : pyval) (body : pyval) : Prop :=
  order_field "phone" body = Some v.

(** The sum step 8 settles on, given the operator's answer [s]. *)
Definition settled_sum (E : Env) (price qty : float) (s : string) : float :=
  if nonblank s then
    match py_float E s with
    | Some payment_sum => payment_sum
    | None => (price * qty)%float
    end
  else (price * qty)%float.

(** The message of lines 391-393. *)
Definition bad_number : event :=
  Print [Lit "Цена или количество введены некорректно."].

(** ** The terminal groups, in the words of the specification

    The service answers with two partitions of blocks, each block naming an
    organization and listing its groups; the resolver flattens the active
    partition followed by the sleeping one, labels every group with the
    organization of its block and drops the groups that have no id. *)

(** The field [k] of a dict, [default] where the dict has no such key. *)
Definition field (k : string) (default v : pyval) : pyval :=
  match at_key k v with
  | Some x => x
  | None => default
  end.

Definition is_dict (v : pyval) : bool :=
  match v with
  | PDict _ => true
  | _ => false
  end.

Definition has_id (item : pyval) : bool := truthy (field "id" PNone item).

Definition group_of (organization_id item : pyval) : pyval :=
  PDict [("id", field "id" PNone item);
         ("name", field "name" (PStr "NoName") item);
         ("organizationId", organization_id)].

Definition items_of (block : pyval) : list pyval :=
  match field "items" (PList []) block with
  | PList items => items
  | _ => []
  end.

Definition groups_of_block (block : pyval) : list pyval :=
  map (group_of (field "organizationId" PNone block))
      (filter has_id (items_of block)).

Definition merged_groups (active sleeping : list pyval) : list pyval :=
  flat_map groups_of_block (active ++ sleeping).

(** A block as the service documents it: a dict whose [items], when present,
    is a list of dicts. *)
Definition well_formed_block (block : pyval) : bool :=
  is_dict block &&
  match field "items" (PList []) block with
  | PList items => forallb is_dict items
  | _ => false
  end.

(** One partition of a terminal-groups answer. *)
Definition partition_of (k : string) (data : pyval) : list pyval :=
  match field k (PList []) data with
  | PList blocks => blocks
  | _ => []
  end.

(** All the blocks of a terminal-groups answer, active ones first. *)
Definition listed_blocks (data : pyval) : list pyval :=
  partition_of "terminalGroups" data ++ partition_of "terminalGroupsInSleep" data.

(** A block with one group that has nothing but an id. *)
Definition block_with (organization_id id : pyval) : pyval :=
  PDict [("organizationId", organization_id);
         ("items", PList [PDict [("id", id)]])].

(** ** How the service can answer a request *)

(** The request does not come back with a usable body: the transport fails,
    the status is one [raise_for_status] raises for, or the body does not
    parse. *)
Definition failing (E : Env) (rq : request) : Prop :=
  match http E rq with
  | Fails _ => True
  | Responds r => error_status (status_code r) = true \/ json r = None
  end.

(** The request comes back with the parsed body [data]. *)
Definition answers_with (E : Env) (rq : request) (data : pyval) : Prop :=
  exists r,
    http E rq = Responds r /\
    error_status (status_code r) = false /\
    json r = Some data.

(** The run issued [rq] and then only logged and printed one error
    message. *)
Definition reports_failure {A} (o : out A) (rq : request) : Prop :=
  exists msg, events o = [Http rq; LogError msg; Print msg].

(** A lookup that ran as [o] on request [rq] gives the empty list both for
    an answer that is [empty] and for a request that fails, without raising;
    only the log and the console tell the two apart. *)
Definition empty_like_failed (E : Env) (rq : request) (empty : pyval -> Prop)
    (o : out pyval) : Prop :=
  (exists v, value o = Ok v) /\
  (forall data,
      answers_with E rq data -> empty data ->
      value o = Ok (PList []) /\ logged_errors (events o) = []) /\
  (failing E rq ->
      value o = Ok (PList []) /\ reports_failure o rq).

(** The answer lists nothing under key [k]. *)
Definition nothing_under (k : string) (data : pyval) : Prop :=
  py_get data k (PList []) = Ok (PList []).

(** The message [main] ends with when it has no token. *)
Definition no_token : event := Print [Lit "Не удалось получить токен доступа."].

(** ** Selections *)

(** The answer [s] to a numbered prompt over [len] entries is not a valid
    choice: [int] rejects it, or the number is out of range. *)
Definition bad_index (E : Env) (len : Z) (s : string) : Prop :=
  py_int E s = None \/
  exists i, py_int E s = Some i /\ (i < 1 \/ len < i).

(** The run [o], started with the answer [s] at the head of the input,
    showed [shown], asked [prompt], printed one message and returned: no
    request, no further question, the rest of the input untouched. *)
Definition aborts_at (prompt s : string) (shown : list event)
    (rest : list string) (o : out unit) : Prop :=
  value o = Ok tt /\
  stdin (after o) = rest /\
  requests (events o) = [] /\
  exists msg, events o = shown ++ [Input prompt (Some s); Print msg].

(** A computation that reads no input and draws no identifier. *)
Definition keeps_state {A} (m : M A) : Prop :=
  forall st, after (m st) = st.

(** The message of lines 366-367. *)
Definition first_type_instead : event :=
  Print [Lit "Введено некорректное значение, будет использован первый тип оплаты."].

(** ** The course of a run *)

(** The endpoints a run called, in order. *)
Definition urls (t : list event) : list string := map req_url (requests t).

(** The endpoints of the script, in the order [main] reaches them. *)
Definition pipeline : list string :=
  [access_token_url; organizations_url; terminal_groups_url; sections_url;
   payment_types_url; order_create_url].

Definition prefix_of {A} (l1 l2 : list A) : Prop := exists l3, l1 ++ l3 = l2.

(** Whatever the state, the endpoints [m] calls are the first ones of [L],
    in that order. *)
Definition calls_within {A} (L : list string) (m : M A) : Prop :=
  forall st, prefix_of (urls (events (m st))) L.

(** Whatever the state, [m] calls the endpoint [u] once and nothing else. *)
Definition calls_once {A} (u : string) (m : M A) : Prop :=
  forall st, urls (events (m st)) = [u].

(** Whatever the state, an exception that leaves [m] satisfies [P]. *)
Definition raises_only {A} (P : exn -> Prop) (m : M A) : Prop :=
  forall st,
    match value (m st) with
    | Ok _ => True
    | Raise e => P e
    end.

(** The exceptions of the script's own handling of data and input: the end
    of the operator's input and a value of an unexpected shape. *)
Definition local_error (e : exn) : Prop :=
  In e [EOFError; AttributeError; TypeError; KeyError; IndexError].

(** If [e] is a request, it satisfies [R]. *)
Definition sends (R : request -> Prop) (e : event) : Prop :=
  match e with
  | Http rq => R rq
  | _ => True
  end.

(** The request carries the header [Authorization: Bearer token]. *)
Definition authorized (token : pyval) (rq : request) : Prop :=
  In (bearer token) (req_headers rq).

(** [e] is no question to the operator. *)
Definition silent (e : event) : Prop :=
  match e with Input _ _ => False | _ => True end.

(** The run [o], started in [st], made the request [rq], asked nothing, said
    [msg] last and returned, leaving the operator's input untouched. *)
Definition ends_after (rq : request) (msg : event) (st : state)
    (o : out unit) : Prop :=
  value o = Ok tt /\
  after o = st /\
  requests (events o) = [rq] /\
  answers (events o) = [] /\
  exists t, events o = t ++ [msg].

(** ** Tables, in service order *)




(** ** Documents and groups *)

(** The name of the document's customer. *)
Definition customer_name_of (body : pyval) : option pyval :=
  match order_field "customer" body with
  | Some customer => at_key "name" customer
  | None => None
  end.


(** The messages of lines 424 and 426. *)
Definition order_created : event :=
  Print [Lit (nl ++ "Создание заказа завершено. См. подробности выше.")].
Definition order_not_created : event :=
  Print [Lit (nl ++ "Не удалось создать заказ.")].

(** The prompt of line 372. *)
Definition manual_payment_type_prompt : string :=
  "Введите UUID типа оплаты (paymentTypeId): ".

(** What a lookup that ran as [o] from [st] makes of an answered request:
    the value under [key] ([[]] when the key is missing) is handed back
    unchanged, with its length in the log, when it has a length; when it has
    none, or when the body is no object, the lookup reports a failure and
    returns the empty list. *)
Definition hands_back (E : Env) (rq : request) (key label : string)
    (st : state) (o : out pyval) : Prop :=
  forall data,
    answers_with E rq data ->
    (is_dict data = false ->
       value o = Ok (PList []) /\ reports_failure o rq) /\
    (is_dict data = true ->
       let v := field key (PList []) data in
       match py_len v with
       | Ok n =>
           o = {| value := Ok v; after := st;
                  events := [Http rq; LogInfo [Lit label; Fmt (PInt n)]] |}
       | Raise _ => value o = Ok (PList []) /\ reports_failure o rq
       end).



(** The run printed the plain message [msg]. *)
Definition says (msg : string) (t : list event) : bool :=
  existsb (fun e => match e with
                    | Print [Lit m] => String.eqb m msg
                    | _ => false
                    end) t.

(** * Properties *)

(** ** Text *)

Lemma append_empty (s : string) : (s ++ "")%string = s.
Proof. induction s as [|c s IH]; cbn; [reflexivity | now rewrite IH]. Qed.

Lemma concat_cons ch l :
  String.concat "" (ch :: l) = (ch ++ String.concat "" l)%string.
Proof.
  destruct l as [|x l]; cbn; [now rewrite append_empty | reflexivity].
Qed.

(** Cutting a string into its characters loses and adds nothing. *)
Lemma characters_concat s : String.concat "" (characters s) = s.
Proof.
  induction s as [|c s IH]; [reflexivity|].
  cbn [characters]. destruct (characters s) as [|ch rest].
  - cbn in IH. now subst s.
  - rewrite concat_cons in IH. destruct (continues ch);
      rewrite !concat_cons; cbn; now rewrite IH.
Qed.

(** On ASCII text a character is a byte. *)
Lemma characters_ascii s :
  forallb (fun c => byte c <? 128) (list_ascii_of_string s) = true ->
  characters s = map (fun c => String c EmptyString) (list_ascii_of_string s).
Proof.
  induction s as [|c s IH]; [reflexivity|].
  cbn [list_ascii_of_string forallb map characters].
  intros H. apply andb_true_iff in H as [_ H]. rewrite (IH H).
  destruct s as [|c' s]; [reflexivity|].
  cbn [list_ascii_of_string forallb map] in *.
  apply andb_true_iff in H as [Hc' _].
  unfold continues, is_continuation.
  replace (128 <=? byte c') with false; [reflexivity|].
  symmetry. apply Z.leb_gt. now apply Z.ltb_lt.
Qed.

(** Length, white space and numbers are those of Python on text past ASCII:
    a Cyrillic word has as many characters as letters, a no-break space is
    blank to [strip] and skipped by [int], and the separator U+001C is blank
    to [strip] but not skipped by [int]. *)
Example text_is_read_as_python_reads_it :
  py_len (PStr "Гость") = Ok 5 /\
  py_index (PStr "Гость") 1 = Ok (PStr "о") /\
  nonblank Demo.nbsp = false /\
  strip (Demo.nbsp ++ " Ann" ++ Demo.nbsp)%string = "Ann" /\
  ascii_int (Demo.nbsp ++ "12")%string = Some 12 /\
  nonblank (String (ascii_of_nat 28) "") = false /\
  ascii_int (String (ascii_of_nat 28) "12") = None.
Proof. repeat split; vm_compute; reflexivity. Qed.

(** ** Runs of composed computations *)

Section Runs.

Context {A B : Type}.

Lemma bind_ok (m : M A) (k : A -> M B) st a :
  value (m st) = Ok a ->
  bind m k st =
  {| value := value (k a (after (m st)));
     after := after (k a (after (m st)));
     events := events (m st) ++ events (k a (after (m st))) |}.
Proof.
  unfold bind. destruct (m st) as [v st1 t1]; cbn. intros ->.
  now destruct (k a st1).
Qed.

Lemma bind_eq (m : M A) (k : A -> M B) st a st1 t1 :
  m st = {| value := Ok a; after := st1; events := t1 |} ->
  bind m k st =
  {| value := value (k a st1);
     after := after (k a st1);
     events := t1 ++ events (k a st1) |}.
Proof. unfold bind. intros ->. now destruct (k a st1). Qed.

Lemma events_bind (m : M A) (k : A -> M B) st :
  events (bind m k st) =
  events (m st) ++
  match value (m st) with
  | Ok a => events (k a (after (m st)))
  | Raise _ => []
  end.
Proof.
  unfold bind. destruct (m st) as [[a|e] st1 t1]; cbn.
  - now destruct (k a st1).
  - now rewrite app_nil_r.
Qed.

Lemma events_try_except (m : M A) (h : exn -> M A) st :
  events (try_except m h st) =
  events (m st) ++
  match value (m st) with
  | Ok _ => []
  | Raise e => events (h e (after (m st)))
  end.
Proof.
  unfold try_except. destruct (m st) as [[a|e] st1 t1]; cbn.
  - now rewrite app_nil_r.
  - now destruct (h e st1).
Qed.

End Runs.

Lemma bind_input {B} prompt (k : string -> M B) s rest n :
  bind (input prompt) k {| stdin := s :: rest; drawn := n |} =
  {| value := value (k s {| stdin := rest; drawn := n |});
     after := after (k s {| stdin := rest; drawn := n |});
     events := Input prompt (Some s)
               :: events (k s {| stdin := rest; drawn := n |}) |}.
Proof.
  exact (bind_eq (input prompt) k {| stdin := s :: rest; drawn := n |} s
           {| stdin := rest; drawn := n |} [Input prompt (Some s)] eq_refl).
Qed.

Lemma bind_print {B} msg (k : unit -> M B) st :
  bind (print msg) k st =
  {| value := value (k tt st);
     after := after (k tt st);
     events := Print msg :: events (k tt st) |}.
Proof. exact (bind_eq (print msg) k st tt st [Print msg] eq_refl). Qed.

Lemma requests_app t1 t2 : requests (t1 ++ t2) = requests t1 ++ requests t2.
Proof. apply flat_map_app. Qed.

Lemma documents_app t1 t2 : documents (t1 ++ t2) = documents t1 ++ documents t2.
Proof. unfold documents. now rewrite requests_app, flat_map_app. Qed.

Lemma requests_cons_offline e t : offline e -> requests (e :: t) = requests t.
Proof. destruct e; cbn; intros H; try reflexivity. contradiction. Qed.

Lemma documents_cons_offline e t :
  offline e -> documents (e :: t) = documents t.
Proof. intros H. unfold documents. now rewrite requests_cons_offline. Qed.

Lemma offline_requests t : Forall offline t -> requests t = [].
Proof.
  induction 1 as [|e t He _ IH]; [reflexivity|].
  destruct e; cbn in *; try assumption. contradiction.
Qed.

Lemma submits_documents Q t : Forall (submits Q) t -> Forall Q (documents t).
Proof.
  induction 1 as [|e t He _ IH]; [constructor|].
  change (e :: t) with ([e] ++ t). rewrite documents_app.
  apply Forall_app. split; [|exact IH].
  destruct e; try constructor.
  unfold documents; cbn. destruct (String.eqb_spec (req_url rq) order_create_url) as [Hu|Hu].
  - destruct (He Hu) as [body [-> Hq]]. cbn. now constructor.
  - constructor.
Qed.

(** ** What composed computations emit *)

Section Emits.

Variable P : event -> Prop.

Lemma emits_only_ret {A} (a : A) : emits_only P (ret a).
Proof. intro st. constructor. Qed.

Lemma emits_only_raise {A} e : emits_only P (@raise A e).
Proof. intro st. constructor. Qed.

Lemma emits_only_lift {A} (r : res A) : emits_only P (lift r).
Proof. destruct r; [apply emits_only_ret | apply emits_only_raise]. Qed.

Lemma emits_only_emit e : P e -> emits_only P (emit e).
Proof. intros He st. cbn. now constructor. Qed.

Lemma emits_only_bind {A B} (m : M A) (k : A -> M B) :
  emits_only P m -> (forall a, emits_only P (k a)) -> emits_only P (bind m k).
Proof.
  intros Hm Hk st. rewrite events_bind. apply Forall_app. split; [apply Hm|].
  destruct (value (m st)); [apply Hk | constructor].
Qed.

Lemma emits_only_try_except {A} (m : M A) (h : exn -> M A) :
  emits_only P m -> (forall e, emits_only P (h e)) ->
  emits_only P (try_except m h).
Proof.
  intros Hm Hh st. rewrite events_try_except. apply Forall_app.
  split; [apply Hm|]. destruct (value (m st)); [constructor | apply Hh].
Qed.

Lemma emits_only_input prompt :
  (forall a, P (Input prompt a)) -> emits_only P (input prompt).
Proof.
  intros Hp st. unfold input. destruct (stdin st); cbn; now constructor.
Qed.

Lemma emits_only_for_each {A} (l : list A) (body : A -> M unit) :
  (forall x, emits_only P (body x)) -> emits_only P (for_each l body).
Proof.
  intros Hb. induction l as [|x l IH]; cbn.
  - apply emits_only_ret.
  - apply emits_only_bind; [apply Hb | intros _; exact IH].
Qed.

Lemma emits_only_for_fold {A S} (l : list A) (s : S) (body : S -> A -> M S) :
  (forall s x, emits_only P (body s x)) -> emits_only P (for_fold l s body).
Proof.
  intros Hb. revert s. induction l as [|x l IH]; intros s; cbn.
  - apply emits_only_ret.
  - apply emits_only_bind; [apply Hb | intros s'; apply IH].
Qed.

Lemma emits_only_new_uuid E : emits_only P (new_uuid E).
Proof. intro st. constructor. Qed.

Lemma emits_only_send E rq : P (Http rq) -> emits_only P (send E rq).
Proof.
  intros Hp. unfold send. apply emits_only_bind.
  - now apply emits_only_emit.
  - intros _. destruct (http E rq); [apply emits_only_raise | apply emits_only_ret].
Qed.

Lemma emits_only_raise_for_status r : emits_only P (raise_for_status r).
Proof.
  unfold raise_for_status.
  destruct (error_status _); [apply emits_only_raise | apply emits_only_ret].
Qed.

Lemma emits_only_response_json r : emits_only P (response_json r).
Proof.
  unfold response_json.
  destruct (json r); [apply emits_only_ret | apply emits_only_raise].
Qed.

End Emits.

Create HintDb emits.

#[local] Hint Resolve emits_only_ret emits_only_raise emits_only_lift
  emits_only_raise_for_status emits_only_response_json emits_only_new_uuid
  : emits.

(** Decomposes a goal [emits_only P m] along the structure of [m];
    [event_tac] proves [P] of the single events. *)
Ltac emits_with event_tac :=
  repeat first
    [ solve [auto with emits nocore]
    | lazymatch goal with
      | |- emits_only _ (send _ _) => apply emits_only_send; event_tac
      | |- emits_only _ (emit _) => apply emits_only_emit; event_tac
      | |- emits_only _ (print _) => apply emits_only_emit; event_tac
      | |- emits_only _ (pprint _) => apply emits_only_emit; event_tac
      | |- emits_only _ (log_info _) => apply emits_only_emit; event_tac
      | |- emits_only _ (log_error _) => apply emits_only_emit; event_tac
      | |- emits_only _ (input _) => apply emits_only_input; intro; event_tac
      | |- emits_only _ (for_each _ _) => apply emits_only_for_each; intro
      | |- emits_only _ (for_fold _ _ _) => apply emits_only_for_fold; intros
      | |- emits_only _ (try_except _ _) =>
          apply emits_only_try_except; [ | intro ]
      | |- emits_only _ (bind _ _) => apply emits_only_bind; [ | intro ]
      | |- emits_only _ (if ?b then _ else _) => destruct b
      | |- emits_only _ (match ?x with _ => _ end) => destruct x
      | |- emits_only _ (let _ := _ in _) => cbv zeta
      end ].

Ltac not_an_order :=
  cbn; try exact I; try (let H := fresh in intro H; discriminate H).

(** *** The lookups and the listings submit nothing *)

Section Lookups.

Variable E : Env.
Variable Q : pyval -> Prop.

Lemma report_submits a b err : emits_only (submits Q) (report a b err).
Proof. unfold report. emits_with not_an_order. Qed.
Hint Resolve report_submits : emits.

Lemma get_access_token_submits api_login :
  emits_only (submits Q) (get_access_token E api_login).
Proof. unfold get_access_token. emits_with not_an_order. Qed.

Lemma get_organizations_submits token :
  emits_only (submits Q) (get_organizations E token).
Proof. unfold get_organizations. emits_with not_an_order. Qed.

Lemma get_terminal_groups_submits token ids :
  emits_only (submits Q) (get_terminal_groups E token ids).
Proof. unfold get_terminal_groups. emits_with not_an_order. Qed.

Lemma get_available_restaurant_sections_submits token ids sch rev :
  emits_only (submits Q) (get_available_restaurant_sections E token ids sch rev).
Proof. unfold get_available_restaurant_sections. emits_with not_an_order. Qed.

Lemma get_payment_types_submits token ids :
  emits_only (submits Q) (get_payment_types E token ids).
Proof. unfold get_payment_types. emits_with not_an_order. Qed.

End Lookups.

(** *** What the stages of [main] submit *)

Section Stages.

Variable E : Env.
Variable Q : pyval -> Prop.

#[local] Hint Resolve report_submits get_access_token_submits
  get_organizations_submits get_terminal_groups_submits
  get_available_restaurant_sections_submits get_payment_types_submits
  : emits.

Lemma create_order_submits token org tg tbl name phone product price qty pt sum :
  (forall order_id position_id,
      Q (order_payload order_id position_id org tg tbl name phone product
           price qty pt sum)) ->
  emits_only (submits Q)
    (create_order E token org tg tbl name phone product price qty pt sum).
Proof.
  intros HQ. unfold create_order.
  emits_with ltac:(first [ solve [not_an_order]
                         | cbn; intros _; eexists; split; [reflexivity | apply HQ] ]).
Qed.

Lemma main_submit_submits token org tg tbl pt name phone product price qty sum :
  (forall order_id position_id,
      Q (order_payload order_id position_id org tg tbl (PStr name)
           (PStr phone) (PStr product) (PFloat price) (PFloat qty) pt
           (PFloat sum))) ->
  emits_only (submits Q)
    (main_submit E token org tg tbl pt name phone product price qty sum).
Proof.
  intros HQ. unfold main_submit.
  pose proof (create_order_submits token org tg tbl (PStr name) (PStr phone)
                (PStr product) (PFloat price) (PFloat qty) pt (PFloat sum) HQ).
  emits_with not_an_order.
Qed.

Lemma main_payment_sum_submits token org tg tbl pt name phone product price qty :
  (forall order_id position_id sum,
      Q (order_payload order_id position_id org tg tbl (PStr name)
           (PStr phone) (PStr product) (PFloat price) (PFloat qty) pt
           (PFloat sum))) ->
  emits_only (submits Q)
    (main_payment_sum E token org tg tbl pt name phone product price qty).
Proof.
  intros HQ. unfold main_payment_sum.
  assert (forall sum, emits_only (submits Q)
            (main_submit E token org tg tbl pt name phone product price qty sum))
    by (intro; apply main_submit_submits; intros; apply HQ).
  emits_with not_an_order.
Qed.

Lemma main_product_submits token org tg tbl pt name phone :
  (forall order_id position_id product price qty sum,
      Q (order_payload order_id position_id org tg tbl (PStr name)
           (PStr phone) (PStr product) (PFloat price) (PFloat qty) pt
           (PFloat sum))) ->
  emits_only (submits Q) (main_product E token org tg tbl pt name phone).
Proof.
  intros HQ. unfold main_product.
  assert (forall product price qty, emits_only (submits Q)
            (main_payment_sum E token org tg tbl pt name phone product price qty))
    by (intros; apply main_payment_sum_submits; intros; apply HQ).
  emits_with not_an_order.
Qed.

(** From here on [Q] is a property of every document the script can build. *)
Hypothesis HQ :
  forall order_id position_id org tg tbl name phone product price qty pt sum,
    Q (order_payload order_id position_id org tg tbl name phone product price
         qty pt sum).

Lemma main_customer_submits token org tg tbl pt :
  emits_only (submits Q) (main_customer E token org tg tbl pt).
Proof.
  unfold main_customer.
  assert (forall name phone, emits_only (submits Q)
            (main_product E token org tg tbl pt name phone))
    by (intros; apply main_product_submits; intros; apply HQ).
  emits_with not_an_order.
Qed.
Hint Resolve main_customer_submits : emits.

Lemma choose_payment_type_submits token org tg tbl pts :
  emits_only (submits Q) (choose_payment_type E token org tg tbl pts).
Proof.
  unfold choose_payment_type, show_payment_types, first_payment_type.
  emits_with not_an_order.
Qed.
Hint Resolve choose_payment_type_submits : emits.

Lemma main_payment_types_submits token org tg tbl :
  emits_only (submits Q) (main_payment_types E token org tg tbl).
Proof. unfold main_payment_types. emits_with not_an_order. Qed.
Hint Resolve main_payment_types_submits : emits.

Lemma choose_table_submits token org tg d :
  emits_only (submits Q) (choose_table E token org tg d).
Proof. unfold choose_table. emits_with not_an_order. Qed.
Hint Resolve choose_table_submits : emits.

Lemma main_tables_submits token org tg :
  emits_only (submits Q) (main_tables E token org tg).
Proof.
  unfold main_tables, list_section, list_table.
  emits_with not_an_order.
Qed.
Hint Resolve main_tables_submits : emits.

Lemma choose_terminal_group_submits token org tgs :
  emits_only (submits Q) (choose_terminal_group E token org tgs).
Proof.
  unfold choose_terminal_group, show_terminal_groups.
  emits_with not_an_order.
Qed.
Hint Resolve choose_terminal_group_submits : emits.

Lemma main_terminal_groups_submits token org :
  emits_only (submits Q) (main_terminal_groups E token org).
Proof. unfold main_terminal_groups. emits_with not_an_order. Qed.
Hint Resolve main_terminal_groups_submits : emits.

Lemma choose_organization_submits token orgs :
  emits_only (submits Q) (choose_organization E token orgs).
Proof.
  unfold choose_organization, show_organizations.
  emits_with not_an_order.
Qed.
Hint Resolve choose_organization_submits : emits.

Lemma main_organizations_submits token :
  emits_only (submits Q) (main_organizations E token).
Proof. unfold main_organizations. emits_with not_an_order. Qed.
Hint Resolve main_organizations_submits : emits.

Lemma main_submits : emits_only (submits Q) (main E).
Proof. unfold main. emits_with not_an_order. Qed.

End Stages.

(** ** Payments are always cash payments *)

Lemma order_payload_pays_cash
    order_id position_id org tg tbl name phone product price qty pt sum :
  pays_cash (order_payload order_id position_id org tg tbl name phone product
               price qty pt sum).
Proof. eexists. split; [reflexivity|]. repeat split. Qed.

(** C10.  Whatever the service answers and whatever the operator types, every
    order document that [main] submits holds exactly one payment, and that
    payment has [paymentTypeKind] "Cash" and [isProcessedExternally],
    [isFiscalizedExternally] and [isPrepay] all false: the kind of the
    payment type the operator selected does not reach the document. *)
Theorem payment_is_always_cash (E : Env) (st : state) :
  Forall pays_cash (documents (events (main E st))).
Proof.
  apply submits_documents, main_submits.
  intros. apply order_payload_pays_cash.
Qed.

(** The operator picks the second payment type, a card: the document names
    that payment type and still says "Cash". *)
Example card_is_submitted_as_cash :
  exists body,
    documents (events (main Demo.env
      (Demo.keyboard ["1"; "1"; "1"; "2"; "Ann"; ""; "p-1"; "10.0"; "2.0"; ""])))
    = [body] /\
    payment_field "paymentTypeId" body = Some (PStr "pt-card") /\
    payment_field "paymentTypeKind" body = Some (PStr "Cash").
Proof.
  eexists. split; [vm_compute; reflexivity|]. split; reflexivity.
Qed.

Lemma payment_is_always_cash_witness :
  Forall pays_cash
    (documents (events (main Demo.env
      (Demo.keyboard ["1"; "1"; "1"; "2"; "Ann"; ""; "p-1"; "10.0"; "2.0"; ""])))).
Proof.
  exact (payment_is_always_cash Demo.env
           (Demo.keyboard ["1"; "1"; "1"; "2"; "Ann"; ""; "p-1"; "10.0"; "2.0"; ""])).
Defined.

(** ** One submission, one request *)

Arguments documents t : simpl never.
Arguments requests t : simpl never.
Arguments answers t : simpl never.
Arguments nonblank s : simpl never.
Arguments bind : simpl never.
Arguments try_except : simpl never.
Arguments get_access_token : simpl never.
Arguments get_organizations : simpl never.
Arguments get_terminal_groups : simpl never.
Arguments get_available_restaurant_sections : simpl never.
Arguments get_payment_types : simpl never.
Arguments create_order : simpl never.
Arguments main_submit : simpl never.
Arguments main_payment_sum : simpl never.
Arguments main_product : simpl never.
Arguments main_customer : simpl never.
Arguments first_payment_type : simpl never.
Arguments show_payment_types : simpl never.
Arguments choose_payment_type : simpl never.
Arguments main_payment_types : simpl never.
Arguments choose_table : simpl never.
Arguments list_table : simpl never.
Arguments list_section : simpl never.
Arguments main_tables : simpl never.
Arguments show_terminal_groups : simpl never.
Arguments choose_terminal_group : simpl never.
Arguments main_terminal_groups : simpl never.
Arguments show_organizations : simpl never.
Arguments choose_organization : simpl never.
Arguments main_organizations : simpl never.
Arguments main : simpl never.

(** Unfolds the monad so that a run on a given state computes. *)
Ltac run :=
  cbv beta delta
    [bind try_except send emit print pprint log_info log_error
     raise_for_status response_json report lift ret raise new_uuid];
  cbn.

Lemma create_order_requests E token org tg tbl name phone product price qty pt sum st :
  requests (events (create_order E token org tg tbl name phone product price
                      qty pt sum st)) =
  [order_request token
     (order_payload (PStr (uuid4 E (drawn st))) (PStr (uuid4 E (S (drawn st))))
        org tg tbl name phone product price qty pt sum)].
Proof.
  unfold create_order. run.
  destruct (http E _) as [msg|r]; cbn; [reflexivity|].
  destruct (error_status _); cbn; [reflexivity|].
  destruct (json r); cbn; reflexivity.
Qed.

Lemma main_submit_requests E token org tg tbl pt name phone product price qty sum st :
  requests (events (main_submit E token org tg tbl pt name phone product price
                      qty sum st)) =
  [order_request token
     (order_payload (PStr (uuid4 E (drawn st))) (PStr (uuid4 E (S (drawn st))))
        org tg tbl (PStr name) (PStr phone) (PStr product) (PFloat price)
        (PFloat qty) pt (PFloat sum))].
Proof.
  unfold main_submit. rewrite events_bind. cbn.
  rewrite requests_cons_offline by exact I.
  rewrite events_bind, requests_app, create_order_requests.
  destruct (value _) as [result|e]; [|reflexivity].
  destruct (truthy result); reflexivity.
Qed.

Lemma main_submit_documents E token org tg tbl pt name phone product price qty sum st :
  documents (events (main_submit E token org tg tbl pt name phone product price
                       qty sum st)) =
  [order_payload (PStr (uuid4 E (drawn st))) (PStr (uuid4 E (S (drawn st))))
     org tg tbl (PStr name) (PStr phone) (PStr product) (PFloat price)
     (PFloat qty) pt (PFloat sum)].
Proof. unfold documents. rewrite main_submit_requests. reflexivity. Qed.

(** ** The payment sum *)

Lemma main_payment_sum_documents
    E token org tg tbl pt name phone product price qty s rest n :
  documents (events (main_payment_sum E token org tg tbl pt name phone product
                       price qty {| stdin := s :: rest; drawn := n |})) =
  [order_payload (PStr (uuid4 E n)) (PStr (uuid4 E (S n))) org tg tbl
     (PStr name) (PStr phone) (PStr product) (PFloat price) (PFloat qty) pt
     (PFloat (settled_sum E price qty s))].
Proof.
  unfold main_payment_sum, settled_sum. rewrite events_bind. cbn.
  rewrite documents_cons_offline by exact I.
  destruct (nonblank s).
  - destruct (py_float E s) as [x|].
    + now rewrite main_submit_documents.
    + rewrite events_bind. cbn.
      rewrite documents_cons_offline by exact I.
      now rewrite main_submit_documents.
  - now rewrite main_submit_documents.
Qed.

(** C5.  When the operator's answer to the payment-sum prompt is blank, or is
    text that [float] rejects, the run submits exactly one document and its
    payment sum is price times quantity; with price 10.0 and quantity 2.0
    that sum is 20.0. *)
Theorem payment_sum_defaults_to_price_times_quantity
    E token org tg tbl pt name phone product price qty s rest n :
  nonblank s = false \/ py_float E s = None ->
  let run := main_payment_sum E token org tg tbl pt name phone product price
               qty {| stdin := s :: rest; drawn := n |} in
  map (payment_field "sum") (documents (events run)) =
    [Some (PFloat (price * qty))] /\
  (price = 10%float -> qty = 2%float ->
   map (payment_field "sum") (documents (events run)) = [Some (PFloat 20)]).
Proof.
  intros Hs run.
  assert (Hsum : map (payment_field "sum") (documents (events run)) =
                 [Some (PFloat (price * qty))]).
  { subst run. rewrite main_payment_sum_documents. unfold settled_sum.
    destruct Hs as [-> | ->]; [reflexivity|].
    destruct (nonblank s); reflexivity. }
  split; [exact Hsum|].
  intros -> ->. exact Hsum.
Qed.

Lemma payment_sum_defaults_witness :
  map (payment_field "sum")
    (documents (events
       (main_payment_sum Demo.env (PStr "T") (PStr "org-1") (PStr "tg-A")
          (PStr "t-1") (PStr "pt-cash") "Guest" "" "p-1" 10 2
          {| stdin := [""]; drawn := 0 |}))) =
  [Some (PFloat 20)].
Proof.
  exact (proj1 (payment_sum_defaults_to_price_times_quantity
                  Demo.env (PStr "T") (PStr "org-1") (PStr "tg-A") (PStr "t-1")
                  (PStr "pt-cash") "Guest" "" "p-1" 10 2 "" [] 0
                  (or_introl eq_refl))).
Defined.

(** ** The customer's phone *)

(** C7, as the specification states it, fails: with the organization, the
    terminal group, the table and the payment type chosen, the customer
    "Ann" and the phone left blank, the document that is submitted has a
    [phone] field, and it holds the empty string. *)
Lemma blank_phone_is_submitted :
  exists body,
    documents (events (main Demo.env
      (Demo.keyboard ["1"; "1"; "1"; "1"; "Ann"; ""; "p-1"; "10.0"; "2.0"; ""])))
    = [body] /\
    order_field "phone" body = Some (PStr "") /\
    order_field "phone" body <> None.
Proof.
  eexists. split; [vm_compute; reflexivity|].
  split; [reflexivity | discriminate].
Qed.

(** C7, amended.  The [phone] field is never omitted: every document the
    script builds has it, holding the customer phone it was given, and every
    document submitted after the operator answered the phone prompt holds
    that answer verbatim, the empty string when the answer was blank. *)
Theorem phone_is_always_sent E token org tg tbl pt name phone rest n :
  (forall order_id position_id customer_name customer_phone product price qty sum,
      phone_is customer_phone
        (order_payload order_id position_id org tg tbl customer_name
           customer_phone product price qty pt sum)) /\
  Forall (phone_is (PStr phone))
    (documents (events (main_customer E token org tg tbl pt
                          {| stdin := name :: phone :: rest; drawn := n |}))).
Proof.
  split; [reflexivity|].
  unfold main_customer. rewrite events_bind. cbn.
  rewrite documents_cons_offline by exact I.
  rewrite events_bind. cbn.
  rewrite documents_cons_offline by exact I.
  apply submits_documents, main_product_submits. reflexivity.
Qed.

(** ** Price and quantity *)

(** C1, as the specification states it, fails: the price "5" and the
    quantity "-1" are accepted, and the document that is submitted has the
    amount -1 and, the sum being left to the script, the payment sum -5. *)
Lemma negative_quantity_is_accepted :
  exists body q s,
    documents (events (main Demo.env
      (Demo.keyboard ["1"; "1"; "1"; "1"; "Ann"; ""; "p-1"; "5"; "-1"; ""])))
    = [body] /\
    item_field "amount" body = Some (PFloat q) /\ (q <=? 0)%float = true /\
    payment_field "sum" body = Some (PFloat s) /\ (s <? 0)%float = true.
Proof.
  do 3 eexists. split; [vm_compute; reflexivity|].
  repeat split; reflexivity.
Qed.

Lemma main_product_rejects E token org tg tbl pt name phone product ps qs rest n :
  nonblank product = true ->
  py_float E ps = None \/ py_float E qs = None ->
  let run := main_product E token org tg tbl pt name phone
               {| stdin := product :: ps :: qs :: rest; drawn := n |} in
  value run = Ok tt /\
  requests (events run) = [] /\
  exists t, events run = t ++ [bad_number] /\ Forall offline t.
Proof.
  intros Hp Hs run. subst run. unfold main_product. run. rewrite Hp. cbn.
  destruct (py_float E ps) as [p|]; cbn.
  - destruct Hs as [Hs|Hs]; [discriminate|]. rewrite Hs. cbn.
    repeat split.
    eexists [_; _; _]. split; [reflexivity|]. repeat constructor.
  - repeat split.
    eexists [_; _]. split; [reflexivity|]. repeat constructor.
Qed.

Lemma main_product_accepts E token org tg tbl pt name phone product ps qs p q rest n :
  nonblank product = true ->
  py_float E ps = Some p -> py_float E qs = Some q ->
  main_product E token org tg tbl pt name phone
    {| stdin := product :: ps :: qs :: rest; drawn := n |} =
  let next := main_payment_sum E token org tg tbl pt name phone product p q
                {| stdin := rest; drawn := n |} in
  {| value := value next;
     after := after next;
     events :=
       [Input (nl ++ "Введите UUID товара (productId): ") (Some product);
        Input "Введите цену за единицу товара: " (Some ps);
        Input "Введите количество (например, 1, 2.5 и т.п.): " (Some qs)]
       ++ events next |}.
Proof.
  intros Hp Hps Hqs. unfold main_product. run. rewrite Hp. cbn.
  rewrite Hps. cbn. rewrite Hqs.
  now destruct (main_payment_sum _ _ _ _ _ _ _ _ _ _ _ _).
Qed.

(** C1, amended.  Step 7 accepts the price and the quantity exactly when
    [float] parses both, whatever their sign: when either is rejected the
    run ends with the message of line 392, having issued no request and so
    built no document; when both parse, the run goes on to the payment sum
    and the one document it then submits carries the parsed price and
    quantity unchanged. *)
Theorem price_and_quantity_accepted_when_they_parse
    E token org tg tbl pt name phone product ps qs sum_s rest n :
  nonblank product = true ->
  let run := main_product E token org tg tbl pt name phone
               {| stdin := product :: ps :: qs :: sum_s :: rest; drawn := n |} in
  (py_float E ps = None \/ py_float E qs = None ->
   value run = Ok tt /\
   requests (events run) = [] /\
   documents (events run) = [] /\
   exists t, events run = t ++ [bad_number] /\ Forall offline t) /\
  (forall p q,
      py_float E ps = Some p -> py_float E qs = Some q ->
      exists body,
        documents (events run) = [body] /\ priced p q body).
Proof.
  intros Hp run. subst run. split.
  - intros Hs.
    destruct (main_product_rejects E token org tg tbl pt name phone product
                ps qs (sum_s :: rest) n Hp Hs) as (Hv & Hr & Ht).
    repeat split; try assumption.
    unfold documents. now rewrite Hr.
  - intros p q Hps Hqs.
    rewrite (main_product_accepts E token org tg tbl pt name phone product
               ps qs p q (sum_s :: rest) n Hp Hps Hqs).
    cbn. do 3 (rewrite documents_cons_offline by exact I).
    rewrite main_payment_sum_documents.
    eexists. split; [reflexivity|]. split; reflexivity.
Qed.

Lemma price_and_quantity_witness :
  exists body,
    documents (events (main_product Demo.env (PStr "T") (PStr "org-1")
                         (PStr "tg-A") (PStr "t-1") (PStr "pt-cash") "Ann" ""
                         {| stdin := ["p-1"; "5"; "-1"; ""]; drawn := 0 |}))
    = [body] /\ priced 5 (-1) body.
Proof.
  exact (proj2 (price_and_quantity_accepted_when_they_parse
                  Demo.env (PStr "T") (PStr "org-1") (PStr "tg-A") (PStr "t-1")
                  (PStr "pt-cash") "Ann" "" "p-1" "5" "-1" "" [] 0 eq_refl)
               5%float (-1)%float eq_refl eq_refl).
Defined.

(** ** Terminal groups *)

Lemma py_get_field v k default :
  is_dict v = true -> py_get v k default = Ok (field k default v).
Proof. destruct v; try discriminate. reflexivity. Qed.

Lemma py_get_ok v k default x :
  py_get v k default = Ok x -> is_dict v = true /\ x = field k default v.
Proof. destruct v; try discriminate. cbn. intros [= <-]. now split. Qed.

Lemma fold_items organization_id items acc :
  forallb is_dict items = true ->
  fold_res items acc (add_item organization_id) =
  Ok (acc ++ map (group_of organization_id) (filter has_id items)).
Proof.
  revert acc. induction items as [|item items IH]; intros acc H; cbn.
  - now rewrite app_nil_r.
  - cbn in H. apply andb_prop in H as [Hd Hi].
    unfold add_item at 1. rewrite !py_get_field by exact Hd. cbn.
    unfold has_id. destruct (truthy (field "id" PNone item)); cbn.
    + rewrite IH by exact Hi. now rewrite <- app_assoc.
    + now apply IH.
Qed.

Lemma add_block_groups acc block :
  well_formed_block block = true ->
  add_block acc block = Ok (acc ++ groups_of_block block).
Proof.
  unfold well_formed_block, add_block, groups_of_block, items_of.
  intros H. apply andb_prop in H as [Hd Hi].
  rewrite !py_get_field by exact Hd. cbn.
  destruct (field "items" (PList []) block); try discriminate. cbn.
  now apply fold_items.
Qed.

Lemma fold_blocks blocks acc :
  forallb well_formed_block blocks = true ->
  fold_res blocks acc add_block = Ok (acc ++ flat_map groups_of_block blocks).
Proof.
  revert acc. induction blocks as [|b blocks IH]; intros acc H; cbn.
  - now rewrite app_nil_r.
  - cbn in H. apply andb_prop in H as [Hb Hbs].
    rewrite add_block_groups by exact Hb. cbn.
    rewrite IH by exact Hbs. now rewrite <- app_assoc.
Qed.

Lemma collect_well_formed blocks :
  forallb well_formed_block blocks = true ->
  collect_groups (PList blocks) = Ok (flat_map groups_of_block blocks).
Proof. intros H. unfold collect_groups. cbn. now rewrite fold_blocks. Qed.

(** The run of [get_terminal_groups] when nothing raises. *)
Lemma get_terminal_groups_ok E token ids st r data active sleeping all groups :
  http E (terminal_groups_request token ids) = Responds r ->
  error_status (status_code r) = false ->
  json r = Some data ->
  py_get data "terminalGroups" (PList []) = Ok active ->
  py_get data "terminalGroupsInSleep" (PList []) = Ok sleeping ->
  py_add active sleeping = Ok all ->
  collect_groups all = Ok groups ->
  get_terminal_groups E token ids st =
  {| value := Ok (PList groups);
     after := st;
     events :=
       [Http (terminal_groups_request token ids);
        LogInfo [Lit "Получено терминальных групп: ";
                 Fmt (PInt (Z.of_nat (List.length groups)))]] |}.
Proof.
  intros Hr Hs Hj Ha Hb Hadd Hc. unfold get_terminal_groups. run.
  rewrite Hr. cbn. rewrite Hs. cbn. rewrite Hj. cbn.
  rewrite Ha. cbn. rewrite Hb. cbn. rewrite Hadd. cbn. rewrite Hc. reflexivity.
Qed.

Lemma py_add_none a b :
  a = PNone \/ b = PNone -> py_add a b = Raise TypeError.
Proof.
  intros [-> | ->]; [reflexivity|].
  destruct a as [|[]| | | | |]; reflexivity.
Qed.

(** C4, as the specification states it, fails: not every answer is merged.
    Line 92 adds the two partitions before any group is read, so when the
    service sends [null] for the sleeping partition the addition raises, the
    handler of line 111 reports it and the call returns the empty list: the
    active group [A] is lost.  An item that is [null] in the sleeping
    partition loses it as well, at line 98. *)
Lemma null_partition_loses_every_group :
  let active := PList [block_with (PStr "org-1") (PStr "A")] in
  let rq := terminal_groups_request (PStr "T") (PList [PStr "org-1"]) in
  let run data :=
    get_terminal_groups (Demo.env_with (fun _ => Demo.ok data)) (PStr "T")
      (PList [PStr "org-1"]) (Demo.keyboard []) in
  let null_partition :=
    run (PDict [("terminalGroups", active); ("terminalGroupsInSleep", PNone)]) in
  let null_item :=
    run (PDict [("terminalGroups", active);
                ("terminalGroupsInSleep",
                 PList [PDict [("organizationId", PStr "org-1");
                               ("items", PList [PNone])]])]) in
  value null_partition = Ok (PList []) /\
  events null_partition =
    [Http rq;
     LogError [Lit "Произошла ошибка при получении терминальных групп: ";
               FmtExn TypeError];
     Print [Lit "Произошла ошибка при получении терминальных групп: ";
            FmtExn TypeError]] /\
  value null_item = Ok (PList []) /\
  events null_item =
    [Http rq;
     LogError [Lit "Произошла ошибка при получении терминальных групп: ";
               FmtExn AttributeError];
     Print [Lit "Произошла ошибка при получении терминальных групп: ";
            FmtExn AttributeError]].
Proof. repeat split; vm_compute; reflexivity. Qed.

(** C4, amended.  When the service answers the terminal-groups request with
    a partition [terminalGroups] and a partition [terminalGroupsInSleep] of
    well-formed blocks, [get_terminal_groups] returns, without an error
    message, one flat list: the groups of the active blocks followed by those
    of the sleeping blocks, each labelled with the [organizationId] of its
    block, the items without an id left out.  With one active group of id
    [A] and one sleeping group of id [B] the ids of the result are [A; B].
    When one of the two partitions is [null], nothing is merged: the call
    reports an error and returns the empty list, whatever the other
    partition holds. *)
Theorem terminal_groups_are_merged E token ids st r data :
  http E (terminal_groups_request token ids) = Responds r ->
  error_status (status_code r) = false ->
  json r = Some data ->
  let run := get_terminal_groups E token ids st in
  (forall active sleeping,
      py_get data "terminalGroups" (PList []) = Ok (PList active) ->
      py_get data "terminalGroupsInSleep" (PList []) = Ok (PList sleeping) ->
      forallb well_formed_block (active ++ sleeping) = true ->
      run =
      {| value := Ok (PList (merged_groups active sleeping));
         after := st;
         events :=
           [Http (terminal_groups_request token ids);
            LogInfo [Lit "Получено терминальных групп: ";
                     Fmt (PInt (Z.of_nat
                                  (List.length (merged_groups active sleeping))))]] |}
      /\
      merged_groups active sleeping =
        flat_map groups_of_block active ++ flat_map groups_of_block sleeping /\
      (forall g, In g (merged_groups active sleeping) ->
         exists block item,
           In block (active ++ sleeping) /\ In item (items_of block) /\
           truthy (field "id" PNone item) = true /\
           g = group_of (field "organizationId" PNone block) item) /\
      (forall A B o1 o2,
         truthy A = true -> truthy B = true ->
         active = [block_with o1 A] -> sleeping = [block_with o2 B] ->
         map (field "id" PNone) (merged_groups active sleeping) = [A; B])) /\
  (forall active sleeping,
      py_get data "terminalGroups" (PList []) = Ok active ->
      py_get data "terminalGroupsInSleep" (PList []) = Ok sleeping ->
      active = PNone \/ sleeping = PNone ->
      value run = Ok (PList []) /\
      reports_failure run (terminal_groups_request token ids)).
Proof.
  intros Hr Hs Hj run. subst run. split.
  - intros active sleeping Ha Hb Hwf. repeat split.
    + eapply get_terminal_groups_ok; eauto.
      * reflexivity.
      * now apply collect_well_formed.
    + unfold merged_groups. apply flat_map_app.
    + intros g Hg. unfold merged_groups in Hg.
      apply in_flat_map in Hg as (block & Hblock & Hg).
      unfold groups_of_block in Hg.
      apply in_map_iff in Hg as (item & <- & Hitem).
      apply filter_In in Hitem as [Hitem Hid].
      exists block, item. auto.
    + intros A B o1 o2 HA HB -> ->. unfold merged_groups. cbn.
      unfold groups_of_block, items_of, has_id. cbn. rewrite HA, HB. reflexivity.
  - intros active sleeping Ha Hb Hnull.
    unfold get_terminal_groups, reports_failure. run.
    rewrite Hr. cbn. rewrite Hs. cbn. rewrite Hj. cbn.
    rewrite Ha. cbn. rewrite Hb. cbn. rewrite (py_add_none _ _ Hnull). cbn.
    split; [reflexivity | eexists; reflexivity].
Qed.

Lemma terminal_groups_merge_witness :
  let active := [block_with (PStr "org-1") (PStr "A")] in
  let sleeping := [block_with (PStr "org-1") (PStr "B")] in
  let E := Demo.env_with (fun _ =>
             Demo.ok (PDict [("terminalGroups", PList active);
                             ("terminalGroupsInSleep", PList sleeping)])) in
  value (get_terminal_groups E (PStr "T") (PList [PStr "org-1"])
           (Demo.keyboard [])) = Ok (PList (merged_groups active sleeping)) /\
  map (field "id" PNone) (merged_groups active sleeping) = [PStr "A"; PStr "B"].
Proof.
  pose proof
    (proj1
       (terminal_groups_are_merged
          (Demo.env_with (fun _ => Demo.ok
             (PDict [("terminalGroups", PList [block_with (PStr "org-1") (PStr "A")]);
                     ("terminalGroupsInSleep", PList [block_with (PStr "org-1") (PStr "B")])])))
          (PStr "T") (PList [PStr "org-1"]) (Demo.keyboard [])
          _ _ eq_refl eq_refl eq_refl)
       [block_with (PStr "org-1") (PStr "A")]
       [block_with (PStr "org-1") (PStr "B")] eq_refl eq_refl eq_refl)
    as (Hrun & _ & _ & Hids).
  split.
  - exact (f_equal value Hrun).
  - exact (Hids (PStr "A") (PStr "B") (PStr "org-1") (PStr "org-1")
             eq_refl eq_refl eq_refl eq_refl).
Defined.

(** *** Where the organization of a group comes from *)

Lemma py_add_list a b l :
  py_add a b = Ok (PList l) ->
  exists la lb, a = PList la /\ b = PList lb /\ l = la ++ lb.
Proof.
  destruct a, b; cbn; try discriminate;
    try (destruct b0; discriminate);
    try (destruct (float_of_Z _); discriminate);
    try (destruct b; destruct (float_of_Z _); discriminate);
    try (destruct b; discriminate).
  intros [= <-]. eauto.
Qed.

Lemma add_item_origin organization_id acc item out g :
  add_item organization_id acc item = Ok out ->
  In g out ->
  In g acc \/ at_key "organizationId" g = Some organization_id.
Proof.
  unfold add_item. destruct (py_get item "id" PNone) as [tg_id|]; [|discriminate].
  cbn. destruct (py_get item "name" (PStr "NoName")) as [tg_name|]; [|discriminate].
  cbn. destruct (truthy tg_id); intros [= <-] Hg; [|now left].
  apply in_app_or in Hg as [Hg | [<- | []]]; [now left | now right].
Qed.

Lemma fold_items_origin organization_id items acc out g :
  fold_res items acc (add_item organization_id) = Ok out ->
  In g out ->
  In g acc \/ at_key "organizationId" g = Some organization_id.
Proof.
  revert acc. induction items as [|item items IH]; intros acc; cbn.
  - intros [= <-]. now left.
  - destruct (add_item organization_id acc item) as [acc'|] eqn:Hi; [|discriminate].
    cbn. intros Hf Hg. destruct (IH _ Hf Hg) as [Hacc | Ho]; [|now right].
    eapply add_item_origin; eassumption.
Qed.

Lemma add_block_origin acc block out g :
  add_block acc block = Ok out ->
  In g out ->
  In g acc \/
  (is_dict block = true /\
   at_key "organizationId" g = Some (field "organizationId" PNone block)).
Proof.
  unfold add_block.
  destruct (py_get block "items" (PList [])) as [items|] eqn:Hitems; [|discriminate].
  apply py_get_ok in Hitems as [Hd _]. rewrite (py_get_field _ _ _ Hd). cbn.
  destruct (py_iter items) as [its|]; [|discriminate]. cbn.
  intros Hf Hg. destruct (fold_items_origin _ _ _ _ _ Hf Hg); auto.
Qed.

Lemma fold_blocks_origin blocks acc out g :
  fold_res blocks acc add_block = Ok out ->
  In g out ->
  In g acc \/
  exists block,
    In block blocks /\ is_dict block = true /\
    at_key "organizationId" g = Some (field "organizationId" PNone block).
Proof.
  revert acc. induction blocks as [|b blocks IH]; intros acc; cbn.
  - intros [= <-]. now left.
  - destruct (add_block acc b) as [acc'|] eqn:Hb; [|discriminate].
    cbn. intros Hf Hg. destruct (IH _ Hf Hg) as [Hacc | (block & Hin & Hd & Ho)].
    + destruct (add_block_origin _ _ _ _ Hb Hacc) as [? | [? ?]]; [now left|].
      right. exists b. auto.
    + right. exists block. auto.
Qed.

Lemma chars_not_dict s block : In block (chars s) -> is_dict block = false.
Proof.
  unfold chars. intros H. apply in_map_iff in H as (ch & <- & _). reflexivity.
Qed.

Lemma collect_groups_origin all groups g :
  collect_groups all = Ok groups ->
  In g groups ->
  exists blocks block,
    all = PList blocks /\ In block blocks /\
    at_key "organizationId" g = Some (field "organizationId" PNone block).
Proof.
  unfold collect_groups.
  destruct (py_iter all) as [blocks|] eqn:Hiter; [|discriminate]. cbn.
  intros Hf Hg.
  destruct (fold_blocks_origin _ _ _ _ Hf Hg) as [[] | (block & Hin & Hd & Ho)].
  destruct all; try discriminate; cbn in Hiter; injection Hiter as <-.
  - apply chars_not_dict in Hin. congruence.
  - eauto.
  - apply in_map_iff in Hin as (kv & <- & _). discriminate.
Qed.

(** Either nothing raised on the way, or the result is the empty list. *)
Lemma get_terminal_groups_cases E token ids st :
  (exists r data active sleeping all groups,
      http E (terminal_groups_request token ids) = Responds r /\
      json r = Some data /\
      py_get data "terminalGroups" (PList []) = Ok active /\
      py_get data "terminalGroupsInSleep" (PList []) = Ok sleeping /\
      py_add active sleeping = Ok all /\
      collect_groups all = Ok groups /\
      value (get_terminal_groups E token ids st) = Ok (PList groups)) \/
  value (get_terminal_groups E token ids st) = Ok (PList []).
Proof.
  unfold get_terminal_groups. run.
  destruct (http E _) as [msg|r] eqn:Hr; cbn; [now right|].
  destruct (error_status _); cbn; [now right|].
  destruct (json r) as [data|] eqn:Hj; cbn; [|now right].
  destruct (py_get data "terminalGroups" _) as [a|e] eqn:Ha; cbn;
    [|right; now destruct e].
  destruct (py_get data "terminalGroupsInSleep" _) as [b|e] eqn:Hb; cbn;
    [|right; now destruct e].
  destruct (py_add a b) as [all|e] eqn:Hadd; cbn; [|right; now destruct e].
  destruct (collect_groups all) as [groups|e] eqn:Hc; cbn;
    [|right; now destruct e].
  left. exists r, data, a, b, all, groups. repeat split; auto.
Qed.

Lemma partition_of_get data k v :
  py_get data k (PList []) = Ok (PList v) -> partition_of k data = v.
Proof.
  intros H. apply py_get_ok in H as [_ H]. unfold partition_of. now rewrite <- H.
Qed.

(** C2, as the specification states it, fails: asked for the terminal groups
    of "org-1", a service that answers with a block of "org-2" makes
    [get_terminal_groups] return a group of "org-2". *)
Lemma foreign_group_is_returned :
  let E := Demo.env_with (fun _ =>
             Demo.ok (PDict [("terminalGroups",
                              PList [block_with (PStr "org-2") (PStr "tg-X")])])) in
  exists g,
    value (get_terminal_groups E (PStr "T") (PList [PStr "org-1"])
             (Demo.keyboard [])) = Ok (PList [g]) /\
    at_key "organizationId" g = Some (PStr "org-2") /\
    ~ In (PStr "org-2") [PStr "org-1"].
Proof.
  eexists. split; [vm_compute; reflexivity|]. split; [reflexivity|].
  intros [H | []]. discriminate H.
Qed.

(** C2, amended.  [get_terminal_groups] always returns a list, and it does
    not filter the answer by the organizations asked for: every group it
    returns carries the [organizationId] of a block the service listed.  So
    the groups returned all belong to organizations of [ids] when every
    block the service lists does. *)
Theorem groups_carry_the_organization_of_their_block E token ids st :
  exists groups,
    value (get_terminal_groups E token (PList ids) st) = Ok (PList groups) /\
    (forall g, In g groups ->
       exists r data block,
         http E (terminal_groups_request token (PList ids)) = Responds r /\
         json r = Some data /\
         In block (listed_blocks data) /\
         at_key "organizationId" g = Some (field "organizationId" PNone block)) /\
    ((forall r data block,
         http E (terminal_groups_request token (PList ids)) = Responds r ->
         json r = Some data ->
         In block (listed_blocks data) ->
         In (field "organizationId" PNone block) ids) ->
     forall g, In g groups ->
       exists o, at_key "organizationId" g = Some o /\ In o ids).
Proof.
  assert (H : exists groups,
    value (get_terminal_groups E token (PList ids) st) = Ok (PList groups) /\
    (forall g, In g groups ->
       exists r data block,
         http E (terminal_groups_request token (PList ids)) = Responds r /\
         json r = Some data /\
         In block (listed_blocks data) /\
         at_key "organizationId" g = Some (field "organizationId" PNone block))).
  { destruct (get_terminal_groups_cases E token (PList ids) st)
      as [(r & data & a & b & all & groups & Hr & Hj & Ha & Hb & Hadd & Hc & Hv) | Hv].
    - exists groups. split; [exact Hv|]. intros g Hg.
      destruct (collect_groups_origin _ _ _ Hc Hg) as (blocks & block & -> & Hin & Ho).
      apply py_add_list in Hadd as (la & lb & -> & -> & ->).
      exists r, data, block. repeat split; auto.
      unfold listed_blocks.
      now rewrite (partition_of_get _ _ _ Ha), (partition_of_get _ _ _ Hb).
    - exists []. split; [exact Hv|]. intros g []. }
  destruct H as (groups & Hv & Hg). exists groups. repeat split; auto.
  intros Hall g Hin. destruct (Hg g Hin) as (r & data & block & Hr & Hj & Hb & Ho).
  eauto.
Qed.

(** ** Empty results and failed lookups *)

(** Runs a lookup whose request fails. *)
Ltac failed_lookup Hf :=
  unfold failing in Hf; unfold reports_failure; run;
  destruct (http _ _) as [msg|r]; cbn;
  [ split; [reflexivity | eexists; reflexivity]
  | destruct Hf as [Hf | Hf]; rewrite Hf; cbn;
    [ split; [reflexivity | eexists; reflexivity]
    | destruct (error_status _); cbn;
      split; try reflexivity; eexists; reflexivity ] ].

(** Runs a lookup whose request is answered. *)
Ltac answered_lookup Ha :=
  let r := fresh "r" in
  let Hr := fresh "Hr" in
  let Hs := fresh "Hs" in
  let Hj := fresh "Hj" in
  destruct Ha as (r & Hr & Hs & Hj); run;
  rewrite Hr; cbn; rewrite Hs; cbn; rewrite Hj; cbn.

(** Runs a lookup to its end, whatever happens on the way. *)
Ltac any_lookup :=
  run;
  repeat match goal with
    | |- context [match http ?E ?rq with _ => _ end] => destruct (http E rq); cbn
    | |- context [if error_status ?c then _ else _] =>
        destruct (error_status c); cbn
    | |- context [match json ?r with _ => _ end] => destruct (json r); cbn
    | |- context [match py_get ?d ?k ?v with _ => _ end] =>
        destruct (py_get d k v) as [?|[]]; cbn
    | |- context [match py_len ?v with _ => _ end] =>
        destruct (py_len v) as [?|[]]; cbn
    | |- context [match py_add ?a ?b with _ => _ end] =>
        destruct (py_add a b) as [?|[]]; cbn
    | |- context [match collect_groups ?v with _ => _ end] =>
        destruct (collect_groups v) as [?|[]]; cbn
    end;
  eexists; reflexivity.

Lemma organizations_lookup E token st :
  empty_like_failed E (organizations_request token)
    (nothing_under "organizations") (get_organizations E token st).
Proof.
  unfold empty_like_failed, nothing_under, get_organizations. repeat apply conj.
  - any_lookup.
  - intros data Ha Hg. answered_lookup Ha. rewrite Hg. now split.
  - intros Hf. failed_lookup Hf.
Qed.

Lemma terminal_groups_lookup E token ids st :
  empty_like_failed E (terminal_groups_request token ids)
    (fun data => nothing_under "terminalGroups" data /\
                 nothing_under "terminalGroupsInSleep" data)
    (get_terminal_groups E token ids st).
Proof.
  unfold empty_like_failed, nothing_under, get_terminal_groups.
  repeat apply conj.
  - any_lookup.
  - intros data Ha [Hg1 Hg2]. answered_lookup Ha. rewrite Hg1. cbn.
    rewrite Hg2. now split.
  - intros Hf. failed_lookup Hf.
Qed.

Lemma sections_lookup E token ids sch rev st :
  empty_like_failed E (sections_request token ids sch rev)
    (nothing_under "restaurantSections")
    (get_available_restaurant_sections E token ids sch rev st).
Proof.
  unfold empty_like_failed, nothing_under, get_available_restaurant_sections.
  repeat apply conj.
  - any_lookup.
  - intros data Ha Hg. answered_lookup Ha. rewrite Hg. now split.
  - intros Hf. failed_lookup Hf.
Qed.

Lemma payment_types_lookup E token ids st :
  empty_like_failed E (payment_types_request token ids)
    (nothing_under "paymentTypes") (get_payment_types E token ids st).
Proof.
  unfold empty_like_failed, nothing_under, get_payment_types.
  repeat apply conj.
  - any_lookup.
  - intros data Ha Hg. answered_lookup Ha. rewrite Hg. now split.
  - intros Hf. failed_lookup Hf.
Qed.

(** C3, as the specification states it, fails: a service that answers the
    sections request with status 500 and one that reports zero sections make
    [get_available_restaurant_sections] return the same value, the empty
    list, and so does [get_payment_types] for a body that does not parse. *)
Lemma failed_lookup_returns_empty_list :
  let failed := Demo.env_with (fun _ => Demo.status 500 "Internal Server Error" None) in
  let empty := Demo.env_with (fun _ =>
                 Demo.ok (PDict [("restaurantSections", PList []);
                                 ("paymentTypes", PList [])])) in
  let garbled := Demo.env_with (fun _ => Demo.status 200 "<html>" None) in
  let st := Demo.keyboard [] in
  value (get_available_restaurant_sections failed (PStr "T") (PList [PStr "tg-A"])
           (PBool false) (PInt 0) st) = Ok (PList []) /\
  value (get_available_restaurant_sections empty (PStr "T") (PList [PStr "tg-A"])
           (PBool false) (PInt 0) st) = Ok (PList []) /\
  value (get_payment_types garbled (PStr "T") (PList [PStr "org-1"]) st)
    = Ok (PList []) /\
  value (get_payment_types empty (PStr "T") (PList [PStr "org-1"]) st)
    = Ok (PList []).
Proof. repeat split; vm_compute; reflexivity. Qed.

(** C3, amended.  Each of the four lookups returns the empty list both when
    the service reports zero entries and when the request fails (transport
    failure, 4xx or 5xx status, body that does not parse), and none of them
    ever raises.  The two cases differ in what the run leaves behind: an
    empty answer puts no error entry in the log, a failure is followed by
    one error entry in the log and the same message on the console. *)
Theorem empty_and_failed_lookups E token ids sch rev st :
  empty_like_failed E (sections_request token ids sch rev)
    (nothing_under "restaurantSections")
    (get_available_restaurant_sections E token ids sch rev st) /\
  empty_like_failed E (payment_types_request token ids)
    (nothing_under "paymentTypes") (get_payment_types E token ids st) /\
  empty_like_failed E (organizations_request token)
    (nothing_under "organizations") (get_organizations E token st) /\
  empty_like_failed E (terminal_groups_request token ids)
    (fun data => nothing_under "terminalGroups" data /\
                 nothing_under "terminalGroupsInSleep" data)
    (get_terminal_groups E token ids st).
Proof.
  split; [apply sections_lookup|].
  split; [apply payment_types_lookup|].
  split; [apply organizations_lookup | apply terminal_groups_lookup].
Qed.

Lemma empty_and_failed_lookups_witness :
  let failed := Demo.env_with (fun _ => Demo.status 500 "Internal Server Error" None) in
  let rq := sections_request (PStr "T") (PList [PStr "tg-A"]) (PBool false) (PInt 0) in
  let run := get_available_restaurant_sections failed (PStr "T")
               (PList [PStr "tg-A"]) (PBool false) (PInt 0) (Demo.keyboard []) in
  value run = Ok (PList []) /\ reports_failure run rq.
Proof.
  exact (proj2 (proj2 (proj1 (empty_and_failed_lookups
           (Demo.env_with (fun _ => Demo.status 500 "Internal Server Error" None))
           (PStr "T") (PList [PStr "tg-A"]) (PBool false) (PInt 0)
           (Demo.keyboard []))))
         (or_introl eq_refl)).
Defined.

(** ** Authentication *)

Lemma get_access_token_failure E api_login st :
  failing E (access_token_request api_login) ->
  let run := get_access_token E api_login st in
  value run = Ok PNone /\ after run = st /\
  reports_failure run (access_token_request api_login).
Proof.
  intros Hf. unfold get_access_token.
  unfold failing in Hf; unfold reports_failure; run.
  destruct (http _ _) as [msg|r]; cbn.
  - repeat split. eexists; reflexivity.
  - destruct Hf as [Hf | Hf]; rewrite Hf; cbn.
    + repeat split. eexists; reflexivity.
    + destruct (error_status _); cbn; repeat split; eexists; reflexivity.
Qed.

Lemma get_access_token_no_token E api_login st data :
  answers_with E (access_token_request api_login) data ->
  truthy (field "token" PNone data) = false ->
  let run := get_access_token E api_login st in
  value run = Ok PNone /\ after run = st /\
  reports_failure run (access_token_request api_login).
Proof.
  intros Ha Hk. unfold get_access_token, reports_failure.
  answered_lookup Ha.
  destruct data as [| | | | | |d]; cbn in *;
    try (repeat split; eexists; reflexivity).
  unfold field in Hk. cbn in Hk. rewrite Hk. cbn.
  repeat split. eexists; reflexivity.
Qed.

Lemma missing_token_is_no_token data :
  at_key "token" data = None -> truthy (field "token" PNone data) = false.
Proof. unfold field. now intros ->. Qed.

Lemma main_without_token E st :
  value (get_access_token E (API_LOGIN E) st) = Ok PNone ->
  after (get_access_token E (API_LOGIN E) st) = st ->
  reports_failure (get_access_token E (API_LOGIN E) st)
    (access_token_request (API_LOGIN E)) ->
  let run := main E st in
  value run = Ok tt /\ after run = st /\
  requests (events run) = [access_token_request (API_LOGIN E)] /\
  answers (events run) = [] /\
  exists msg,
    events run =
    [Http (access_token_request (API_LOGIN E)); LogError msg; Print msg; no_token].
Proof.
  intros Hv Hst [msg Hev]. unfold main. cbn zeta.
  rewrite (bind_ok _ _ _ _ Hv). rewrite Hst, Hev. cbn.
  repeat split. eexists; reflexivity.
Qed.

(** C6, as the specification states it, fails for a status that is neither
    2xx nor one [raise_for_status] raises for: when the token endpoint
    answers 300, which the client hands back like any answer, with a body
    that holds a token, [get_access_token] returns that token and [main]
    goes on to ask for the organizations. *)
Lemma token_accepted_with_status_300 :
  let E := Demo.env_with
             (Demo.service (Demo.status 300 "" (Some (PDict [("token", PStr "T")])))
                (Demo.ok Demo.terminal_groups) (Demo.ok Demo.sections)
                (Demo.ok Demo.payment_types) (Demo.ok Demo.created)) in
  value (get_access_token E (API_LOGIN E) (Demo.keyboard [])) = Ok (PStr "T") /\
  requests (events (main E (Demo.keyboard []))) =
    [access_token_request (API_LOGIN E); organizations_request (PStr "T")].
Proof. split; vm_compute; reflexivity. Qed.

(** C6, amended.  When the request to the token endpoint fails (transport
    failure, 4xx or 5xx status, body that does not parse) or is answered
    with a body that holds no token (no [token] field, as in [{}], or an
    empty one), [get_access_token] returns [None] and [main] ends at once:
    it has issued that one request, asked the operator nothing, and its last
    output is the message of line 265. *)
Theorem authentication_failure_ends_the_run E st :
  let rq := access_token_request (API_LOGIN E) in
  failing E rq \/
  (exists data,
      answers_with E rq data /\
      (at_key "token" data = None \/
       truthy (field "token" PNone data) = false)) ->
  value (get_access_token E (API_LOGIN E) st) = Ok PNone /\
  (let run := main E st in
   value run = Ok tt /\ after run = st /\
   requests (events run) = [rq] /\
   answers (events run) = [] /\
   exists msg, events run = [Http rq; LogError msg; Print msg; no_token]).
Proof.
  intros rq H. subst rq.
  assert (Hrun :
    value (get_access_token E (API_LOGIN E) st) = Ok PNone /\
    after (get_access_token E (API_LOGIN E) st) = st /\
    reports_failure (get_access_token E (API_LOGIN E) st)
      (access_token_request (API_LOGIN E))).
  { destruct H as [Hf | (data & Ha & Hk)].
    - now apply get_access_token_failure.
    - apply (get_access_token_no_token E _ st data Ha).
      destruct Hk as [Hk | Hk]; [now apply missing_token_is_no_token | exact Hk]. }
  destruct Hrun as (Hv & Hst & Hrep).
  split; [exact Hv|]. now apply main_without_token.
Qed.

Lemma authentication_failure_witness :
  let E := Demo.env_with (fun _ => Demo.ok (PDict [])) in
  let st := Demo.keyboard ["1"] in
  value (get_access_token E (API_LOGIN E) st) = Ok PNone /\
  (let run := main E st in
   value run = Ok tt /\ after run = st /\
   requests (events run) = [access_token_request (API_LOGIN E)] /\
   answers (events run) = [] /\
   exists msg,
     events run =
     [Http (access_token_request (API_LOGIN E)); LogError msg; Print msg; no_token]).
Proof.
  exact (authentication_failure_ends_the_run
           (Demo.env_with (fun _ => Demo.ok (PDict []))) (Demo.keyboard ["1"])
           (or_intror (ex_intro _ (PDict [])
              (conj (ex_intro _ _ (conj eq_refl (conj eq_refl eq_refl)))
                    (or_introl eq_refl))))).
Defined.

(** ** Submission *)

Lemma create_order_answered E token org tg tbl name phone product price qty pt sum st data :
  answers_with E
    (order_request token
       (order_payload (PStr (uuid4 E (drawn st))) (PStr (uuid4 E (S (drawn st))))
          org tg tbl name phone product price qty pt sum)) data ->
  value (create_order E token org tg tbl name phone product price qty pt sum st)
  = Ok data.
Proof.
  intros Ha. unfold create_order. answered_lookup Ha. reflexivity.
Qed.

Lemma create_order_failure E token org tg tbl name phone product price qty pt sum st :
  let rq := order_request token
       (order_payload (PStr (uuid4 E (drawn st))) (PStr (uuid4 E (S (drawn st))))
          org tg tbl name phone product price qty pt sum) in
  failing E rq ->
  let run := create_order E token org tg tbl name phone product price qty pt sum st in
  value run = Ok (PDict []) /\ reports_failure run rq.
Proof.
  intros rq Hf. subst rq. unfold create_order. failed_lookup Hf.
Qed.

(** C8, as the specification states it, fails for a status that is neither
    2xx nor one [raise_for_status] raises for: when the order endpoint
    answers 300, which the client hands back like any answer, with a body
    that parses, [create_order] returns that body like that of a successful
    submission, and [main] reports the order as created. *)
Lemma order_accepted_with_status_300 :
  let E := Demo.env_with
             (Demo.service (Demo.ok (PDict [("token", PStr "T")]))
                (Demo.ok Demo.terminal_groups) (Demo.ok Demo.sections)
                (Demo.ok Demo.payment_types)
                (Demo.status 300 "" (Some Demo.created))) in
  value (create_order E (PStr "T") (PStr "org-1") (PStr "tg-A") (PStr "t-1")
           (PStr "Ann") (PStr "") (PStr "p-1") (PFloat 10) (PFloat 2)
           (PStr "pt-cash") (PFloat 20) (Demo.keyboard [])) = Ok Demo.created /\
  let run := main E
    (Demo.keyboard ["1"; "1"; "1"; "1"; "Ann"; ""; "p-1"; "10.0"; "2.0"; ""]) in
  logged_errors (events run) = [] /\
  List.last (events run) (Print []) =
    Print [Lit (nl ++ "Создание заказа завершено. См. подробности выше.")].
Proof. repeat split; vm_compute; reflexivity. Qed.

Lemma success_is_no_error code : 200 <= code < 300 -> error_status code = false.
Proof.
  intros H. unfold error_status. apply andb_false_iff. left.
  apply Z.leb_gt. lia.
Qed.

(** C8, amended.  Every call of [create_order] issues exactly one request,
    the POST of the document to the order-creation endpoint, and returns
    without raising: the parsed body of the answer when the request is
    answered, in particular with a 2xx status, and the empty dict, after one
    error entry in the log and on the console, when the request fails
    (transport failure, 4xx or 5xx status, body that does not parse).
    Nothing is sent a second time. *)
Theorem create_order_posts_once
    E token org tg tbl name phone product price qty pt sum st :
  let run := create_order E token org tg tbl name phone product price qty pt
               sum st in
  let rq := order_request token
       (order_payload (PStr (uuid4 E (drawn st))) (PStr (uuid4 E (S (drawn st))))
          org tg tbl name phone product price qty pt sum) in
  requests (events run) = [rq] /\
  req_method rq = POST /\ req_url rq = order_create_url /\
  (forall r data,
      http E rq = Responds r -> 200 <= status_code r < 300 ->
      json r = Some data -> value run = Ok data) /\
  (forall data, answers_with E rq data -> value run = Ok data) /\
  (failing E rq -> value run = Ok (PDict []) /\ reports_failure run rq).
Proof.
  intros run rq. subst run rq. split; [apply create_order_requests|].
  split; [reflexivity|]. split; [reflexivity|]. split; [|split].
  - intros r data Hr Hs Hj. apply create_order_answered.
    exists r. auto using success_is_no_error.
  - intros data. apply create_order_answered.
  - apply create_order_failure.
Qed.

Lemma create_order_posts_once_witness :
  let E := Demo.env_with (fun _ => Demo.status 503 "Service Unavailable" None) in
  let run := create_order E (PStr "T") (PStr "org-1") (PStr "tg-A") (PStr "t-1")
               (PStr "Ann") (PStr "") (PStr "p-1") (PFloat 10) (PFloat 2)
               (PStr "pt-cash") (PFloat 20) (Demo.keyboard []) in
  value run = Ok (PDict []) /\
  reports_failure run
    (order_request (PStr "T")
       (order_payload (PStr "uuid-0") (PStr "uuid-1") (PStr "org-1")
          (PStr "tg-A") (PStr "t-1") (PStr "Ann") (PStr "") (PStr "p-1")
          (PFloat 10) (PFloat 2) (PStr "pt-cash") (PFloat 20))).
Proof.
  exact (proj2 (proj2 (proj2 (proj2 (proj2 (create_order_posts_once
           (Demo.env_with (fun _ => Demo.status 503 "Service Unavailable" None))
           (PStr "T") (PStr "org-1") (PStr "tg-A") (PStr "t-1")
           (PStr "Ann") (PStr "") (PStr "p-1") (PFloat 10) (PFloat 2)
           (PStr "pt-cash") (PFloat 20) (Demo.keyboard []))))))
         (or_introl eq_refl)).
Defined.

(** ** Selections *)

Section Keeps.

Lemma keeps_state_ret {A} (a : A) : keeps_state (ret a).
Proof. intro st. reflexivity. Qed.

Lemma keeps_state_raise {A} e : keeps_state (@raise A e).
Proof. intro st. reflexivity. Qed.

Lemma keeps_state_lift {A} (r : res A) : keeps_state (lift r).
Proof. destruct r; intro st; reflexivity. Qed.

Lemma keeps_state_emit e : keeps_state (emit e).
Proof. intro st. reflexivity. Qed.

Lemma keeps_state_bind {A B} (m : M A) (k : A -> M B) :
  keeps_state m -> (forall a, keeps_state (k a)) -> keeps_state (bind m k).
Proof.
  intros Hm Hk st. unfold bind. specialize (Hm st).
  destruct (m st) as [[a|e] st1 t1]; cbn in *; subst.
  - specialize (Hk a st). now destruct (k a st).
  - reflexivity.
Qed.

Lemma keeps_state_for_each {A} (l : list A) (body : A -> M unit) :
  (forall x, keeps_state (body x)) -> keeps_state (for_each l body).
Proof.
  intros Hb. induction l as [|x l IH]; cbn.
  - apply keeps_state_ret.
  - apply keeps_state_bind; [apply Hb | intros _; exact IH].
Qed.

End Keeps.

(** Decomposes a goal [keeps_state m] along the structure of [m]. *)
Ltac keeps :=
  repeat lazymatch goal with
    | |- keeps_state (ret _) => apply keeps_state_ret
    | |- keeps_state (raise _) => apply keeps_state_raise
    | |- keeps_state (lift _) => apply keeps_state_lift
    | |- keeps_state (emit _) => apply keeps_state_emit
    | |- keeps_state (print _) => apply keeps_state_emit
    | |- keeps_state (for_each _ _) => apply keeps_state_for_each; intro
    | |- keeps_state (bind _ _) => apply keeps_state_bind; [ | intro ]
    | |- keeps_state (match ?x with _ => _ end) => destruct x
    end.

Lemma show_organizations_keeps v : keeps_state (show_organizations v).
Proof. unfold show_organizations. keeps. Qed.

Lemma show_terminal_groups_keeps v : keeps_state (show_terminal_groups v).
Proof. unfold show_terminal_groups. keeps. Qed.

Lemma show_payment_types_keeps v : keeps_state (show_payment_types v).
Proof. unfold show_payment_types. keeps. Qed.

Lemma show_organizations_offline v : emits_only offline (show_organizations v).
Proof. unfold show_organizations. emits_with ltac:(exact I). Qed.

Lemma show_terminal_groups_offline v :
  emits_only offline (show_terminal_groups v).
Proof. unfold show_terminal_groups. emits_with ltac:(exact I). Qed.

Lemma show_payment_types_offline v :
  emits_only offline (show_payment_types v).
Proof. unfold show_payment_types. emits_with ltac:(exact I). Qed.

(** A listing, a prompt answered with [s], and then one message. *)
Lemma aborts_after_listing (show : M unit) prompt s rest n (k : string -> M unit) msg :
  keeps_state show ->
  emits_only offline show ->
  value (show {| stdin := s :: rest; drawn := n |}) = Ok tt ->
  k s {| stdin := rest; drawn := n |} =
    {| value := Ok tt; after := {| stdin := rest; drawn := n |};
       events := [Print msg] |} ->
  aborts_at prompt s (events (show {| stdin := s :: rest; drawn := n |})) rest
    (bind show (fun _ => bind (input prompt) k)
       {| stdin := s :: rest; drawn := n |}).
Proof.
  intros Hk Ho Hv Hks. unfold aborts_at.
  pose proof (Hk {| stdin := s :: rest; drawn := n |}) as Hst.
  assert (Hin : bind (input prompt) k {| stdin := s :: rest; drawn := n |} =
                {| value := Ok tt; after := {| stdin := rest; drawn := n |};
                   events := [Input prompt (Some s); Print msg] |}).
  { unfold bind. cbn. now rewrite Hks. }
  rewrite (bind_ok _ _ _ _ Hv), Hst, Hin. cbn. repeat split.
  - rewrite requests_app, (offline_requests _ (Ho _)). reflexivity.
  - eexists. reflexivity.
Qed.

Lemma out_of_range len i : i < 1 \/ len < i -> (i <? 1) || (len <? i) = true.
Proof.
  intros [H | H]; apply orb_true_iff; [left | right]; now apply Z.ltb_lt.
Qed.

(** Closes the goal left by [aborts_after_listing]: what follows the prompt
    when the answer is no valid choice. *)
Ltac after_bad_index Hs Hlen Hi :=
  rewrite Hs;
  first [ reflexivity
        | rewrite Hlen; unfold bind; cbn; rewrite (out_of_range _ _ Hi);
          reflexivity ].

Lemma choose_organization_aborts E token organizations len s rest n :
  let st := {| stdin := s :: rest; drawn := n |} in
  value (show_organizations organizations st) = Ok tt ->
  py_len organizations = Ok len ->
  bad_index E len s ->
  aborts_at organization_prompt s (events (show_organizations organizations st))
    rest (choose_organization E token organizations st).
Proof.
  intros st Hv Hlen Hbad. subst st. unfold choose_organization.
  destruct Hbad as [Hs | (i & Hs & Hi)];
    (eapply aborts_after_listing;
     [ apply show_organizations_keeps | apply show_organizations_offline
     | exact Hv | after_bad_index Hs Hlen Hi ]).
Qed.

Lemma choose_terminal_group_aborts E token org terminal_groups len s rest n :
  let st := {| stdin := s :: rest; drawn := n |} in
  value (show_terminal_groups terminal_groups st) = Ok tt ->
  py_len terminal_groups = Ok len ->
  bad_index E len s ->
  aborts_at terminal_group_prompt s
    (events (show_terminal_groups terminal_groups st))
    rest (choose_terminal_group E token org terminal_groups st).
Proof.
  intros st Hv Hlen Hbad. subst st. unfold choose_terminal_group.
  destruct Hbad as [Hs | (i & Hs & Hi)];
    (eapply aborts_after_listing;
     [ apply show_terminal_groups_keeps | apply show_terminal_groups_offline
     | exact Hv | after_bad_index Hs Hlen Hi ]).
Qed.

Lemma choose_table_aborts E token org tg table_dict s rest n :
  bad_index E (Z.of_nat (List.length table_dict)) s ->
  aborts_at table_prompt s [] rest
    (choose_table E token org tg table_dict {| stdin := s :: rest; drawn := n |}).
Proof.
  intros Hbad. unfold choose_table, aborts_at, bind. cbn.
  destruct Hbad as [Hs | (i & Hs & Hi)]; rewrite Hs; cbn.
  - repeat split. eexists. reflexivity.
  - rewrite (out_of_range _ _ Hi). cbn. repeat split. eexists. reflexivity.
Qed.

Lemma choose_payment_type_aborts E token org tg tbl payment_types len s rest n :
  let st := {| stdin := s :: rest; drawn := n |} in
  value (show_payment_types payment_types st) = Ok tt ->
  py_len payment_types = Ok len ->
  nonblank s = true ->
  (exists i, py_int E s = Some i /\ (i < 1 \/ len < i)) ->
  aborts_at payment_type_prompt s
    (events (show_payment_types payment_types st))
    rest (choose_payment_type E token org tg tbl payment_types st).
Proof.
  intros st Hv Hlen Hnb (i & Hs & Hi). subst st. unfold choose_payment_type.
  cbn zeta.
  eapply aborts_after_listing;
    [apply show_payment_types_keeps | apply show_payment_types_offline
    | exact Hv | ].
  rewrite Hnb, Hs, Hlen. unfold bind. cbn. rewrite (out_of_range _ _ Hi).
  reflexivity.
Qed.

Lemma choose_payment_type_falls_back
    E token org tg tbl payment_types pt id s rest n :
  let st := {| stdin := s :: rest; drawn := n |} in
  value (show_payment_types payment_types st) = Ok tt ->
  nonblank s = false \/ py_int E s = None ->
  py_index payment_types 0 = Ok pt ->
  py_get pt "id" PNone = Ok id ->
  let next := main_customer E token org tg tbl id {| stdin := rest; drawn := n |} in
  let run := choose_payment_type E token org tg tbl payment_types st in
  value run = value next /\
  after run = after next /\
  events run =
    events (show_payment_types payment_types st) ++
    Input payment_type_prompt (Some s) ::
    (if nonblank s then [first_type_instead] else []) ++ events next.
Proof.
  intros st Hv Hs Hpt Hid next run. subst st next run.
  unfold choose_payment_type. cbn zeta.
  rewrite (bind_ok _ _ _ _ Hv), show_payment_types_keeps.
  assert (Hfirst : forall st',
            first_payment_type payment_types st' =
            {| value := Ok id; after := st'; events := [] |}).
  { intros st'. unfold first_payment_type, bind. rewrite Hpt. cbn.
    now rewrite Hid. }
  rewrite bind_input. cbn.
  destruct (nonblank s).
  - destruct Hs as [Hs | Hs]; [discriminate|]. rewrite Hs.
    rewrite bind_print. cbn. rewrite (bind_eq _ _ _ _ _ _ (Hfirst _)). cbn.
    auto.
  - rewrite (bind_eq _ _ _ _ _ _ (Hfirst _)). cbn. auto.
Qed.

(** C9, as the specification states it, fails at the payment-type prompt:
    the answer "abc", which [int] rejects, does not end the run; the script
    takes the first payment type and goes on to submit the order. *)
Lemma bad_payment_type_choice_does_not_end_the_run :
  let run := main Demo.env
    (Demo.keyboard ["1"; "1"; "1"; "abc"; "Ann"; ""; "p-1"; "10.0"; "2.0"; ""]) in
  py_int Demo.env "abc" = None /\
  In (payment_type_prompt, Some "abc") (answers (events run)) /\
  List.length (answers (events run)) = 10%nat /\
  exists body,
    documents (events run) = [body] /\
    payment_field "paymentTypeId" body = Some (PStr "pt-cash").
Proof.
  split; [reflexivity|]. split; [vm_compute; tauto|].
  split; [vm_compute; reflexivity|].
  eexists. split; [vm_compute; reflexivity | reflexivity].
Qed.

(** C9, amended.  At the organization, terminal-group and table prompts an
    answer that [int] rejects or a number out of range ends the run there:
    one message, no request, nothing more asked.  At the payment-type prompt
    a number out of range ends the run in the same way, but an answer that
    is blank or that [int] rejects does not: the script takes the first
    payment type (saying so when the answer was not blank) and goes on with
    the customer's details. *)
Theorem bad_selection_ends_the_run
    E token org tg tbl organizations terminal_groups table_dict payment_types
    len s rest n :
  let st := {| stdin := s :: rest; drawn := n |} in
  (value (show_organizations organizations st) = Ok tt ->
   py_len organizations = Ok len ->
   bad_index E len s ->
   aborts_at organization_prompt s
     (events (show_organizations organizations st)) rest
     (choose_organization E token organizations st)) /\
  (value (show_terminal_groups terminal_groups st) = Ok tt ->
   py_len terminal_groups = Ok len ->
   bad_index E len s ->
   aborts_at terminal_group_prompt s
     (events (show_terminal_groups terminal_groups st)) rest
     (choose_terminal_group E token org terminal_groups st)) /\
  (bad_index E (Z.of_nat (List.length table_dict)) s ->
   aborts_at table_prompt s [] rest
     (choose_table E token org tg table_dict st)) /\
  (value (show_payment_types payment_types st) = Ok tt ->
   py_len payment_types = Ok len ->
   nonblank s = true ->
   (exists i, py_int E s = Some i /\ (i < 1 \/ len < i)) ->
   aborts_at payment_type_prompt s
     (events (show_payment_types payment_types st)) rest
     (choose_payment_type E token org tg tbl payment_types st)) /\
  (value (show_payment_types payment_types st) = Ok tt ->
   nonblank s = false \/ py_int E s = None ->
   forall pt id,
     py_index payment_types 0 = Ok pt ->
     py_get pt "id" PNone = Ok id ->
     let next := main_customer E token org tg tbl id
                   {| stdin := rest; drawn := n |} in
     let run := choose_payment_type E token org tg tbl payment_types st in
     value run = value next /\
     after run = after next /\
     events run =
       events (show_payment_types payment_types st) ++
       Input payment_type_prompt (Some s) ::
       (if nonblank s then [first_type_instead] else []) ++ events next).
Proof.
  intros st. subst st. repeat apply conj.
  - apply choose_organization_aborts.
  - apply choose_terminal_group_aborts.
  - apply choose_table_aborts.
  - apply choose_payment_type_aborts.
  - intros Hv Hs pt id Hpt Hid.
    now apply (choose_payment_type_falls_back E token org tg tbl payment_types pt id).
Qed.

Lemma bad_selection_witness :
  let organizations := PList [PDict [("id", PStr "org-1"); ("name", PStr "Cafe")]] in
  let st := {| stdin := ["7"; "Ann"]; drawn := 0 |} in
  aborts_at organization_prompt "7"
    (events (show_organizations organizations st)) ["Ann"]
    (choose_organization Demo.env (PStr "T") organizations st).
Proof.
  exact (proj1 (bad_selection_ends_the_run Demo.env (PStr "T") (PStr "org-1")
                  (PStr "tg-A") (PStr "t-1")
                  (PList [PDict [("id", PStr "org-1"); ("name", PStr "Cafe")]])
                  (PList []) [] (PList []) 1 "7" ["Ann"] 0)
               eq_refl eq_refl
               (or_intror (ex_intro _ 7 (conj eq_refl (or_intror eq_refl))))).
Defined.

Lemma scoped_groups_witness :
  exists groups,
    value (get_terminal_groups Demo.env (PStr "T") (PList [PStr "org-1"])
             (Demo.keyboard [])) = Ok (PList groups) /\
    forall g, In g groups ->
      exists o, at_key "organizationId" g = Some o /\ In o [PStr "org-1"].
Proof.
  destruct (groups_carry_the_organization_of_their_block Demo.env (PStr "T")
              [PStr "org-1"] (Demo.keyboard [])) as (groups & Hv & _ & Hs).
  exists groups. split; [exact Hv|]. apply Hs.
  intros r data block Hr Hj Hb.
  injection Hr as <-. injection Hj as <-.
  destruct Hb as [<- | [<- | []]]; left; reflexivity.
Defined.

(** * Further properties *)

(** ** Every lookup is one request *)

(** Runs a request function through all its outcomes. *)
Ltac every_outcome :=
  run;
  repeat match goal with
    | |- context [match http ?E ?rq with _ => _ end] => destruct (http E rq); cbn
    | |- context [if error_status ?c then _ else _] =>
        destruct (error_status c); cbn
    | |- context [match json ?r with _ => _ end] => destruct (json r); cbn
    | |- context [match py_get ?d ?k ?v with _ => _ end] =>
        destruct (py_get d k v) as [?|[]]; cbn
    | |- context [match py_len ?v with _ => _ end] =>
        destruct (py_len v) as [?|[]]; cbn
    | |- context [match py_add ?a ?b with _ => _ end] =>
        destruct (py_add a b) as [?|[]]; cbn
    | |- context [match collect_groups ?v with _ => _ end] =>
        destruct (collect_groups v) as [?|[]]; cbn
    | |- context [if negb (truthy ?v) then _ else _] =>
        destruct (truthy v); cbn
    | |- context [if truthy ?v then _ else _] => destruct (truthy v); cbn
    end.

Lemma get_access_token_once E api_login st :
  let run := get_access_token E api_login st in
  requests (events run) = [access_token_request api_login] /\ after run = st.
Proof. unfold get_access_token. every_outcome; split; reflexivity. Qed.

Lemma get_organizations_once E token st :
  let run := get_organizations E token st in
  requests (events run) = [organizations_request token] /\ after run = st.
Proof. unfold get_organizations. every_outcome; split; reflexivity. Qed.

Lemma get_terminal_groups_once E token ids st :
  let run := get_terminal_groups E token ids st in
  requests (events run) = [terminal_groups_request token ids] /\ after run = st.
Proof. unfold get_terminal_groups. every_outcome; split; reflexivity. Qed.

Lemma get_sections_once E token ids sch rev st :
  let run := get_available_restaurant_sections E token ids sch rev st in
  requests (events run) = [sections_request token ids sch rev] /\ after run = st.
Proof.
  unfold get_available_restaurant_sections. every_outcome; split; reflexivity.
Qed.

Lemma get_payment_types_once E token ids st :
  let run := get_payment_types E token ids st in
  requests (events run) = [payment_types_request token ids] /\ after run = st.
Proof. unfold get_payment_types. every_outcome; split; reflexivity. Qed.

(** ** The order of the requests *)

Lemma urls_app t1 t2 : urls (t1 ++ t2) = urls t1 ++ urls t2.
Proof. unfold urls. now rewrite requests_app, map_app. Qed.

Lemma offline_urls t : Forall offline t -> urls t = [].
Proof. intros H. unfold urls. now rewrite (offline_requests _ H). Qed.

Lemma calls_within_offline {A} L (m : M A) :
  emits_only offline m -> calls_within L m.
Proof. intros H st. rewrite (offline_urls _ (H st)). now exists L. Qed.

Lemma calls_within_bind_offline {A B} L (m : M A) (k : A -> M B) :
  emits_only offline m ->
  (forall a, calls_within L (k a)) ->
  calls_within L (bind m k).
Proof.
  intros Hm Hk st. rewrite events_bind, urls_app, (offline_urls _ (Hm st)).
  cbn. destruct (value (m st)) as [a|e]; [apply Hk | now exists L].
Qed.

Lemma calls_within_bind_call {A B} u L (m : M A) (k : A -> M B) :
  calls_once u m ->
  (forall a, calls_within L (k a)) ->
  calls_within (u :: L) (bind m k).
Proof.
  intros Hm Hk st. rewrite events_bind, urls_app, (Hm st). cbn.
  destruct (value (m st)) as [a|e].
  - destruct (Hk a (after (m st))) as [l3 H]. exists l3. cbn. now rewrite H.
  - now exists L.
Qed.

Lemma calls_once_requests {A} (m : M A) rq :
  (forall st, requests (events (m st)) = [rq]) -> calls_once (req_url rq) m.
Proof. intros H st. unfold urls. now rewrite H. Qed.

Lemma get_access_token_calls E api_login :
  calls_once access_token_url (get_access_token E api_login).
Proof.
  apply (calls_once_requests _ (access_token_request api_login)).
  intros st. apply get_access_token_once.
Qed.

Lemma get_organizations_calls E token :
  calls_once organizations_url (get_organizations E token).
Proof.
  apply (calls_once_requests _ (organizations_request token)).
  intros st. apply get_organizations_once.
Qed.

Lemma get_terminal_groups_calls E token ids :
  calls_once terminal_groups_url (get_terminal_groups E token ids).
Proof.
  apply (calls_once_requests _ (terminal_groups_request token ids)).
  intros st. apply get_terminal_groups_once.
Qed.

Lemma get_sections_calls E token ids sch rev :
  calls_once sections_url (get_available_restaurant_sections E token ids sch rev).
Proof.
  apply (calls_once_requests _ (sections_request token ids sch rev)).
  intros st. apply get_sections_once.
Qed.

Lemma get_payment_types_calls E token ids :
  calls_once payment_types_url (get_payment_types E token ids).
Proof.
  apply (calls_once_requests _ (payment_types_request token ids)).
  intros st. apply get_payment_types_once.
Qed.

Lemma create_order_calls E token org tg tbl name phone product price qty pt sum :
  calls_once order_create_url
    (create_order E token org tg tbl name phone product price qty pt sum).
Proof. intros st. unfold urls. now rewrite create_order_requests. Qed.

Lemma first_payment_type_offline v : emits_only offline (first_payment_type v).
Proof. unfold first_payment_type. emits_with ltac:(exact I). Qed.

Lemma list_section_offline vars section :
  emits_only offline (list_section vars section).
Proof. unfold list_section, list_table. emits_with ltac:(exact I). Qed.

Create HintDb offline.

#[local] Hint Resolve show_organizations_offline show_terminal_groups_offline
  show_payment_types_offline first_payment_type_offline list_section_offline
  : offline.

#[local] Hint Resolve get_access_token_calls get_organizations_calls
  get_terminal_groups_calls get_sections_calls get_payment_types_calls
  create_order_calls : offline.

(** Proves that a computation issues no request. *)
Ltac is_offline :=
  first [ solve [auto with offline nocore]
        | emits_with ltac:(first [exact I | solve [auto with offline nocore]]);
          auto with offline nocore ].

(** Decomposes a goal [calls_within L m] along the structure of [m]. *)
Ltac in_order :=
  repeat first
    [ solve [auto with offline nocore]
    | lazymatch goal with
      | |- calls_within (_ :: _) (bind _ _) =>
          first [ apply calls_within_bind_call;
                  [ solve [auto with offline nocore] | intro ]
                | apply calls_within_bind_offline; [ is_offline | intro ] ]
      | |- calls_within _ (bind _ _) =>
          apply calls_within_bind_offline; [ is_offline | intro ]
      | |- calls_within _ (if ?b then _ else _) => destruct b
      | |- calls_within _ (match ?x with _ => _ end) => destruct x
      | |- calls_within _ (let _ := _ in _) => cbv zeta
      | |- calls_within _ _ => apply calls_within_offline; is_offline
      end ].

Section Order.

Variable E : Env.

Lemma main_submit_in_order token org tg tbl pt name phone product price qty sum :
  calls_within [order_create_url]
    (main_submit E token org tg tbl pt name phone product price qty sum).
Proof. unfold main_submit. in_order. Qed.
Hint Resolve main_submit_in_order : offline.

Lemma main_payment_sum_in_order token org tg tbl pt name phone product price qty :
  calls_within [order_create_url]
    (main_payment_sum E token org tg tbl pt name phone product price qty).
Proof. unfold main_payment_sum. in_order. Qed.
Hint Resolve main_payment_sum_in_order : offline.

Lemma main_product_in_order token org tg tbl pt name phone :
  calls_within [order_create_url]
    (main_product E token org tg tbl pt name phone).
Proof. unfold main_product. in_order. Qed.
Hint Resolve main_product_in_order : offline.

Lemma main_customer_in_order token org tg tbl pt :
  calls_within [order_create_url] (main_customer E token org tg tbl pt).
Proof. unfold main_customer. in_order. Qed.
Hint Resolve main_customer_in_order : offline.

Lemma choose_payment_type_in_order token org tg tbl pts :
  calls_within [order_create_url] (choose_payment_type E token org tg tbl pts).
Proof. unfold choose_payment_type. in_order. Qed.
Hint Resolve choose_payment_type_in_order : offline.

Lemma main_payment_types_in_order token org tg tbl :
  calls_within [payment_types_url; order_create_url]
    (main_payment_types E token org tg tbl).
Proof. unfold main_payment_types. in_order. Qed.
Hint Resolve main_payment_types_in_order : offline.

Lemma choose_table_in_order token org tg d :
  calls_within [payment_types_url; order_create_url]
    (choose_table E token org tg d).
Proof. unfold choose_table. in_order. Qed.
Hint Resolve choose_table_in_order : offline.

Lemma main_tables_in_order token org tg :
  calls_within [sections_url; payment_types_url; order_create_url]
    (main_tables E token org tg).
Proof. unfold main_tables. in_order. Qed.
Hint Resolve main_tables_in_order : offline.

Lemma choose_terminal_group_in_order token org tgs :
  calls_within [sections_url; payment_types_url; order_create_url]
    (choose_terminal_group E token org tgs).
Proof. unfold choose_terminal_group. in_order. Qed.
Hint Resolve choose_terminal_group_in_order : offline.

Lemma main_terminal_groups_in_order token org :
  calls_within
    [terminal_groups_url; sections_url; payment_types_url; order_create_url]
    (main_terminal_groups E token org).
Proof. unfold main_terminal_groups. in_order. Qed.
Hint Resolve main_terminal_groups_in_order : offline.

Lemma choose_organization_in_order token orgs :
  calls_within
    [terminal_groups_url; sections_url; payment_types_url; order_create_url]
    (choose_organization E token orgs).
Proof. unfold choose_organization. in_order. Qed.
Hint Resolve choose_organization_in_order : offline.

Lemma main_organizations_in_order token :
  calls_within
    [organizations_url; terminal_groups_url; sections_url; payment_types_url;
     order_create_url]
    (main_organizations E token).
Proof. unfold main_organizations. in_order. Qed.
Hint Resolve main_organizations_in_order : offline.

Lemma main_in_order : calls_within pipeline (main E).
Proof. unfold main, pipeline. in_order. Qed.

End Order.

(** X1.  Whatever the service answers and whatever the operator types, the
    endpoints a run of [main] calls are, in this order, the first ones of
    the sequence token, organizations, terminal groups, sections, payment
    types, order creation: an endpoint is called only after all the ones
    ahead of it in the sequence, and none is called twice. *)
Theorem requests_follow_the_pipeline (E : Env) (st : state) :
  prefix_of (urls (events (main E st))) pipeline.
Proof. apply main_in_order. Qed.

(** A complete run reaches every endpoint. *)
Example complete_run_calls_every_endpoint :
  urls (events (main Demo.env
    (Demo.keyboard ["1"; "1"; "1"; "1"; "Ann"; ""; "p-1"; "10.0"; "2.0"; ""])))
  = pipeline.
Proof. vm_compute. reflexivity. Qed.

Lemma documents_bounded t :
  (List.length (documents t) <= count_occ string_dec (urls t) order_create_url)%nat.
Proof.
  unfold documents, urls. induction (requests t) as [|rq l IH]; cbn; [lia|].
  destruct (String.eqb_spec (req_url rq) order_create_url) as [Hu|Hu].
  - destruct (string_dec (req_url rq) order_create_url) as [_|Hn]; [|contradiction].
    destruct (req_json rq); cbn; lia.
  - destruct (string_dec (req_url rq) order_create_url); cbn; lia.
Qed.

Lemma count_occ_prefix (l1 l2 : list string) u :
  prefix_of l1 l2 ->
  (count_occ string_dec l1 u <= count_occ string_dec l2 u)%nat.
Proof. intros [l3 <-]. rewrite count_occ_app. lia. Qed.

(** X2.  No run of [main] submits more than one order document, and no run
    calls an endpoint twice. *)
Theorem at_most_one_order_per_run (E : Env) (st : state) :
  (List.length (documents (events (main E st))) <= 1)%nat /\
  NoDup (urls (events (main E st))).
Proof.
  pose proof (main_in_order E st) as Hp. split.
  - etransitivity; [apply documents_bounded|].
    etransitivity; [apply (count_occ_prefix _ _ _ Hp)|].
    vm_compute. lia.
  - destruct Hp as [l3 Hp].
    assert (Hn : NoDup pipeline).
    { repeat constructor; cbn; intuition discriminate. }
    rewrite <- Hp in Hn. now apply NoDup_app_remove_r in Hn.
Qed.

(** ** What can end a run with an exception *)

Section Raises.

Variable P : exn -> Prop.

Lemma raises_only_ret {A} (a : A) : raises_only P (ret a).
Proof. intro st. exact I. Qed.

Lemma raises_only_raise {A} e : P e -> raises_only P (@raise A e).
Proof. intros H st. exact H. Qed.

Lemma raises_only_lift {A} (r : res A) :
  (forall e, r = Raise e -> P e) -> raises_only P (lift r).
Proof. destruct r; intros H st; cbn; auto. Qed.

Lemma raises_only_emit e : raises_only P (emit e).
Proof. intro st. exact I. Qed.

Lemma raises_only_input prompt : P EOFError -> raises_only P (input prompt).
Proof. intros H st. unfold input. now destruct (stdin st). Qed.

Lemma raises_only_bind {A B} (m : M A) (k : A -> M B) :
  raises_only P m -> (forall a, raises_only P (k a)) ->
  raises_only P (bind m k).
Proof.
  intros Hm Hk st. unfold bind. specialize (Hm st).
  destruct (m st) as [[a|e] st1 t1]; cbn in *; [|exact Hm].
  specialize (Hk a st1). now destruct (k a st1).
Qed.

Lemma raises_only_try_except {A} (m : M A) (h : exn -> M A) :
  (forall e, raises_only P (h e)) -> raises_only P (try_except m h).
Proof.
  intros Hh st. unfold try_except.
  destruct (m st) as [[a|e] st1 t1]; cbn; [exact I|].
  specialize (Hh e st1). now destruct (h e st1).
Qed.

Lemma raises_only_for_each {A} (l : list A) (body : A -> M unit) :
  (forall x, raises_only P (body x)) -> raises_only P (for_each l body).
Proof.
  intros Hb. induction l as [|x l IH]; cbn.
  - apply raises_only_ret.
  - apply raises_only_bind; [apply Hb | intros _; exact IH].
Qed.

Lemma raises_only_for_fold {A S} (l : list A) (s : S) (body : S -> A -> M S) :
  (forall s x, raises_only P (body s x)) -> raises_only P (for_fold l s body).
Proof.
  intros Hb. revert s. induction l as [|x l IH]; intros s; cbn.
  - apply raises_only_ret.
  - apply raises_only_bind; [apply Hb | intros s'; apply IH].
Qed.

Lemma raises_only_new_uuid E : raises_only P (new_uuid E).
Proof. intro st. exact I. Qed.

End Raises.

Lemma py_get_raises v k d e : py_get v k d = Raise e -> local_error e.
Proof. destruct v; cbn; intros [= <-]; unfold local_error; cbn; tauto. Qed.

Lemma py_iter_raises v e : py_iter v = Raise e -> local_error e.
Proof. destruct v; cbn; intros [= <-]; unfold local_error; cbn; tauto. Qed.

Lemma py_len_raises v e : py_len v = Raise e -> local_error e.
Proof. destruct v; cbn; intros [= <-]; unfold local_error; cbn; tauto. Qed.

Lemma seq_index_raises {A} (l : list A) i e :
  seq_index l i = Raise e -> local_error e.
Proof.
  unfold seq_index. destruct (_ || _); [|destruct (nth_error _ _)];
    intros [= <-]; unfold local_error; cbn; tauto.
Qed.

Lemma py_index_raises v i e : py_index v i = Raise e -> local_error e.
Proof.
  destruct v; cbn; try (intros [= <-]; unfold local_error; cbn; tauto);
    apply seq_index_raises.
Qed.

Lemma table_get_raises d k e : table_get d k = Raise e -> local_error e.
Proof.
  induction d as [|[k' v] d IH]; cbn.
  - intros [= <-]. unfold local_error; cbn; tauto.
  - destruct (k =? k'); [discriminate | exact IH].
Qed.

(** Decomposes a goal [raises_only local_error m] along the structure of
    [m]. *)
Ltac only_local :=
  repeat first
    [ solve [auto with offline nocore]
    | lazymatch goal with
      | |- raises_only _ (ret _) => apply raises_only_ret
      | |- raises_only _ (emit _) => apply raises_only_emit
      | |- raises_only _ (print _) => apply raises_only_emit
      | |- raises_only _ (pprint _) => apply raises_only_emit
      | |- raises_only _ (log_info _) => apply raises_only_emit
      | |- raises_only _ (log_error _) => apply raises_only_emit
      | |- raises_only _ (new_uuid _) => apply raises_only_new_uuid
      | |- raises_only _ (input _) =>
          apply raises_only_input; unfold local_error; cbn; tauto
      | |- raises_only _ (lift _) =>
          apply raises_only_lift;
          eauto using py_get_raises, py_iter_raises, py_len_raises,
            py_index_raises, table_get_raises
      | |- raises_only _ (for_each _ _) => apply raises_only_for_each; intro
      | |- raises_only _ (for_fold _ _ _) => apply raises_only_for_fold; intros
      | |- raises_only _ (try_except _ _) =>
          apply raises_only_try_except; intro
      | |- raises_only _ (bind _ _) => apply raises_only_bind; [ | intro ]
      | |- raises_only _ (if ?b then _ else _) => destruct b
      | |- raises_only _ (match ?x with _ => _ end) => destruct x
      | |- raises_only _ (let _ := _ in _) => cbv zeta
      end ].

Section Caught.

Variable E : Env.

Lemma report_raises a b err : raises_only local_error (report a b err).
Proof. unfold report. only_local. Qed.
Hint Resolve report_raises : offline.

Lemma get_access_token_raises api_login :
  raises_only local_error (get_access_token E api_login).
Proof. unfold get_access_token. only_local. Qed.

Lemma get_organizations_raises token :
  raises_only local_error (get_organizations E token).
Proof. unfold get_organizations. only_local. Qed.

Lemma get_terminal_groups_raises token ids :
  raises_only local_error (get_terminal_groups E token ids).
Proof. unfold get_terminal_groups. only_local. Qed.

Lemma get_sections_raises token ids sch rev :
  raises_only local_error (get_available_restaurant_sections E token ids sch rev).
Proof. unfold get_available_restaurant_sections. only_local. Qed.

Lemma get_payment_types_raises token ids :
  raises_only local_error (get_payment_types E token ids).
Proof. unfold get_payment_types. only_local. Qed.

Lemma create_order_raises token org tg tbl name phone product price qty pt sum :
  raises_only local_error
    (create_order E token org tg tbl name phone product price qty pt sum).
Proof. unfold create_order. only_local. Qed.

Hint Resolve get_access_token_raises get_organizations_raises
  get_terminal_groups_raises get_sections_raises get_payment_types_raises
  create_order_raises : offline.

Lemma main_submit_raises token org tg tbl pt name phone product price qty sum :
  raises_only local_error
    (main_submit E token org tg tbl pt name phone product price qty sum).
Proof. unfold main_submit. only_local. Qed.
Hint Resolve main_submit_raises : offline.

Lemma main_payment_sum_raises token org tg tbl pt name phone product price qty :
  raises_only local_error
    (main_payment_sum E token org tg tbl pt name phone product price qty).
Proof. unfold main_payment_sum. only_local. Qed.
Hint Resolve main_payment_sum_raises : offline.

Lemma main_product_raises token org tg tbl pt name phone :
  raises_only local_error (main_product E token org tg tbl pt name phone).
Proof. unfold main_product. only_local. Qed.
Hint Resolve main_product_raises : offline.

Lemma main_customer_raises token org tg tbl pt :
  raises_only local_error (main_customer E token org tg tbl pt).
Proof. unfold main_customer. only_local. Qed.
Hint Resolve main_customer_raises : offline.

Lemma choose_payment_type_raises token org tg tbl pts :
  raises_only local_error (choose_payment_type E token org tg tbl pts).
Proof.
  unfold choose_payment_type, show_payment_types, first_payment_type.
  only_local.
Qed.
Hint Resolve choose_payment_type_raises : offline.

Lemma main_payment_types_raises token org tg tbl :
  raises_only local_error (main_payment_types E token org tg tbl).
Proof. unfold main_payment_types. only_local. Qed.
Hint Resolve main_payment_types_raises : offline.

Lemma choose_table_raises token org tg d :
  raises_only local_error (choose_table E token org tg d).
Proof. unfold choose_table. only_local. Qed.
Hint Resolve choose_table_raises : offline.

Lemma main_tables_raises token org tg :
  raises_only local_error (main_tables E token org tg).
Proof. unfold main_tables, list_section, list_table. only_local. Qed.
Hint Resolve main_tables_raises : offline.

Lemma choose_terminal_group_raises token org tgs :
  raises_only local_error (choose_terminal_group E token org tgs).
Proof. unfold choose_terminal_group, show_terminal_groups. only_local. Qed.
Hint Resolve choose_terminal_group_raises : offline.

Lemma main_terminal_groups_raises token org :
  raises_only local_error (main_terminal_groups E token org).
Proof. unfold main_terminal_groups. only_local. Qed.
Hint Resolve main_terminal_groups_raises : offline.

Lemma choose_organization_raises token orgs :
  raises_only local_error (choose_organization E token orgs).
Proof. unfold choose_organization, show_organizations. only_local. Qed.
Hint Resolve choose_organization_raises : offline.

Lemma main_organizations_raises token :
  raises_only local_error (main_organizations E token).
Proof. unfold main_organizations. only_local. Qed.
Hint Resolve main_organizations_raises : offline.


End Caught.




(** The two ways a run does end with an exception: the operator's input
    stops at the first prompt, and an organization that is no object. *)
Example input_and_shape_errors_escape :
  value (main Demo.env (Demo.keyboard [])) = Raise EOFError /\
  value (main (Demo.env_with (fun rq =>
                 if String.eqb (req_url rq) access_token_url
                 then Demo.ok (PDict [("token", PStr "T")])
                 else Demo.ok (PDict [("organizations", PList [PStr "Cafe"])])))
           (Demo.keyboard ["1"])) = Raise AttributeError.
Proof. split; vm_compute; reflexivity. Qed.

(** ** The token on every request *)

Lemma sends_requests R t : Forall (sends R) t -> Forall R (requests t).
Proof.
  induction 1 as [|e t He _ IH]; [constructor|].
  destruct e; cbn in *; try exact IH.
  change (requests (Http rq :: t)) with (rq :: requests t). now constructor.
Qed.

Ltac with_token := cbn; try exact I; unfold authorized; cbn; auto.

Section Token.

Variable E : Env.
Variable token : pyval.

Let P := sends (authorized token).

Lemma report_authorized a b err : emits_only P (report a b err).
Proof. unfold report. emits_with with_token. Qed.
Hint Resolve report_authorized : emits.

Lemma get_organizations_authorized :
  emits_only P (get_organizations E token).
Proof. unfold get_organizations. emits_with with_token. Qed.

Lemma get_terminal_groups_authorized ids :
  emits_only P (get_terminal_groups E token ids).
Proof. unfold get_terminal_groups. emits_with with_token. Qed.

Lemma get_sections_authorized ids sch rev :
  emits_only P (get_available_restaurant_sections E token ids sch rev).
Proof. unfold get_available_restaurant_sections. emits_with with_token. Qed.

Lemma get_payment_types_authorized ids :
  emits_only P (get_payment_types E token ids).
Proof. unfold get_payment_types. emits_with with_token. Qed.

Lemma create_order_authorized org tg tbl name phone product price qty pt sum :
  emits_only P
    (create_order E token org tg tbl name phone product price qty pt sum).
Proof. unfold create_order. emits_with with_token. Qed.

Hint Resolve get_organizations_authorized get_terminal_groups_authorized
  get_sections_authorized get_payment_types_authorized create_order_authorized
  : emits.

Lemma main_submit_authorized org tg tbl pt name phone product price qty sum :
  emits_only P
    (main_submit E token org tg tbl pt name phone product price qty sum).
Proof. unfold main_submit. emits_with with_token. Qed.
Hint Resolve main_submit_authorized : emits.

Lemma main_payment_sum_authorized org tg tbl pt name phone product price qty :
  emits_only P
    (main_payment_sum E token org tg tbl pt name phone product price qty).
Proof. unfold main_payment_sum. emits_with with_token. Qed.
Hint Resolve main_payment_sum_authorized : emits.

Lemma main_product_authorized org tg tbl pt name phone :
  emits_only P (main_product E token org tg tbl pt name phone).
Proof. unfold main_product. emits_with with_token. Qed.
Hint Resolve main_product_authorized : emits.

Lemma main_customer_authorized org tg tbl pt :
  emits_only P (main_customer E token org tg tbl pt).
Proof. unfold main_customer. emits_with with_token. Qed.
Hint Resolve main_customer_authorized : emits.

Lemma choose_payment_type_authorized org tg tbl pts :
  emits_only P (choose_payment_type E token org tg tbl pts).
Proof.
  unfold choose_payment_type, show_payment_types, first_payment_type.
  emits_with with_token.
Qed.
Hint Resolve choose_payment_type_authorized : emits.

Lemma main_payment_types_authorized org tg tbl :
  emits_only P (main_payment_types E token org tg tbl).
Proof. unfold main_payment_types. emits_with with_token. Qed.
Hint Resolve main_payment_types_authorized : emits.

Lemma choose_table_authorized org tg d :
  emits_only P (choose_table E token org tg d).
Proof. unfold choose_table. emits_with with_token. Qed.
Hint Resolve choose_table_authorized : emits.

Lemma main_tables_authorized org tg :
  emits_only P (main_tables E token org tg).
Proof. unfold main_tables, list_section, list_table. emits_with with_token. Qed.
Hint Resolve main_tables_authorized : emits.

Lemma choose_terminal_group_authorized org tgs :
  emits_only P (choose_terminal_group E token org tgs).
Proof.
  unfold choose_terminal_group, show_terminal_groups. emits_with with_token.
Qed.
Hint Resolve choose_terminal_group_authorized : emits.

Lemma main_terminal_groups_authorized org :
  emits_only P (main_terminal_groups E token org).
Proof. unfold main_terminal_groups. emits_with with_token. Qed.
Hint Resolve main_terminal_groups_authorized : emits.

Lemma choose_organization_authorized orgs :
  emits_only P (choose_organization E token orgs).
Proof.
  unfold choose_organization, show_organizations. emits_with with_token.
Qed.
Hint Resolve choose_organization_authorized : emits.

Lemma main_organizations_authorized :
  emits_only P (main_organizations E token).
Proof. unfold main_organizations. emits_with with_token. Qed.

End Token.

(** X4.  The first request of a run is the one for the token, sent without
    an [Authorization] header; every request after it carries the token
    [get_access_token] returned, unchanged, as [Bearer] token. *)
Theorem every_request_carries_the_token (E : Env) (st : state) :
  req_headers (access_token_request (API_LOGIN E)) = [content_json] /\
  exists rest,
    requests (events (main E st)) = access_token_request (API_LOGIN E) :: rest /\
    forall token,
      value (get_access_token E (API_LOGIN E) st) = Ok token ->
      Forall (authorized token) rest.
Proof.
  split; [reflexivity|].
  unfold main. rewrite events_bind, requests_app.
  destruct (get_access_token_once E (API_LOGIN E) st) as [-> Hst].
  destruct (value (get_access_token E (API_LOGIN E) st)) as [token|e].
  - eexists. split; [reflexivity|]. intros ? [= <-].
    apply sends_requests.
    destruct (negb (truthy token)).
    + repeat constructor.
    + apply main_organizations_authorized.
  - exists []. split; [reflexivity|]. discriminate.
Qed.

(** ** When a lookup comes back empty *)

Lemma silent_answers t : Forall silent t -> answers t = [].
Proof.
  induction 1 as [|e t He _ IH]; [reflexivity|].
  destruct e; cbn in *; try exact IH. contradiction.
Qed.

Lemma answers_app t1 t2 : answers (t1 ++ t2) = answers t1 ++ answers t2.
Proof. apply flat_map_app. Qed.

Section Silent.

Variable E : Env.

Lemma report_silent a b err : emits_only silent (report a b err).
Proof. unfold report. emits_with ltac:(exact I). Qed.
Hint Resolve report_silent : emits.

Lemma get_organizations_silent token :
  emits_only silent (get_organizations E token).
Proof. unfold get_organizations. emits_with ltac:(exact I). Qed.

Lemma get_terminal_groups_silent token ids :
  emits_only silent (get_terminal_groups E token ids).
Proof. unfold get_terminal_groups. emits_with ltac:(exact I). Qed.

Lemma get_sections_silent token ids sch rev :
  emits_only silent (get_available_restaurant_sections E token ids sch rev).
Proof. unfold get_available_restaurant_sections. emits_with ltac:(exact I). Qed.

Lemma get_payment_types_silent token ids :
  emits_only silent (get_payment_types E token ids).
Proof. unfold get_payment_types. emits_with ltac:(exact I). Qed.

End Silent.

(** A lookup that returns a value taken for empty, then one message. *)
Lemma ends_after_empty_lookup (lookup : M pyval) (k : pyval -> M unit) rq m st v :
  requests (events (lookup st)) = [rq] ->
  after (lookup st) = st ->
  emits_only silent lookup ->
  value (lookup st) = Ok v ->
  k v st = {| value := Ok tt; after := st; events := [Print m] |} ->
  ends_after rq (Print m) st (bind lookup k st).
Proof.
  intros Hr Hst Hs Hv Hk. rewrite (bind_ok _ _ _ _ Hv), Hst, Hk. cbn.
  unfold ends_after. cbn. repeat split.
  - rewrite requests_app, Hr. reflexivity.
  - rewrite answers_app, (silent_answers _ (Hs st)). reflexivity.
  - eexists. reflexivity.
Qed.

(** X5.  When the lookup of the organizations, of the terminal groups or of
    the sections returns a value Python takes for false (the empty list of a
    failure or of an answer without entries), the run ends there: after the
    one request of that lookup it asks the operator nothing, prints the
    message of that step and returns, leaving the input untouched. *)
Theorem empty_lookup_ends_the_run E token org tg st v :
  truthy v = false ->
  (value (get_organizations E token st) = Ok v ->
   ends_after (organizations_request token)
     (Print [Lit "Не удалось получить список организаций."]) st
     (main_organizations E token st)) /\
  (value (get_terminal_groups E token (PList [org]) st) = Ok v ->
   ends_after (terminal_groups_request token (PList [org]))
     (Print [Lit "Не удалось получить терминальные группы."]) st
     (main_terminal_groups E token org st)) /\
  (value (get_available_restaurant_sections E token (PList [tg]) (PBool false)
            (PInt 0) st) = Ok v ->
   ends_after (sections_request token (PList [tg]) (PBool false) (PInt 0))
     (Print [Lit "Не удалось получить секции ресторанов."]) st
     (main_tables E token org tg st)).
Proof.
  intros Hf. repeat apply conj; intros Hv.
  - unfold main_organizations.
    eapply ends_after_empty_lookup; eauto using get_organizations_silent;
      try apply get_organizations_once.
    now rewrite Hf.
  - unfold main_terminal_groups.
    eapply ends_after_empty_lookup; eauto using get_terminal_groups_silent;
      try apply get_terminal_groups_once.
    now rewrite Hf.
  - unfold main_tables.
    eapply ends_after_empty_lookup; eauto using get_sections_silent;
      try apply get_sections_once.
    now rewrite Hf.
Qed.

Lemma empty_lookup_witness :
  let E := Demo.env_with
             (Demo.service (Demo.ok (PDict [("token", PStr "T")]))
                (Demo.status 500 "" None) (Demo.ok Demo.sections)
                (Demo.ok Demo.payment_types) (Demo.ok Demo.created)) in
  ends_after (terminal_groups_request (PStr "T") (PList [PStr "org-1"]))
    (Print [Lit "Не удалось получить терминальные группы."])
    (Demo.keyboard ["1"])
    (main_terminal_groups E (PStr "T") (PStr "org-1") (Demo.keyboard ["1"])).
Proof.
  exact (proj1 (proj2 (empty_lookup_ends_the_run
           (Demo.env_with
              (Demo.service (Demo.ok (PDict [("token", PStr "T")]))
                 (Demo.status 500 "" None) (Demo.ok Demo.sections)
                 (Demo.ok Demo.payment_types) (Demo.ok Demo.created)))
           (PStr "T") (PStr "org-1") (PStr "tg-A") (Demo.keyboard ["1"])
           (PList []) eq_refl))
         eq_refl).
Defined.

(** ** What a lookup hands back *)

(** Runs a lookup on an answered request. *)
Ltac handed_back :=
  unfold hands_back, reports_failure;
  let data := fresh "data" in
  let Ha := fresh "Ha" in
  intros data Ha; answered_lookup Ha;
  split; intros Hd;
  [ destruct data; try discriminate Hd; cbn; split; try reflexivity;
    eexists; reflexivity
  | rewrite (py_get_field _ _ _ Hd); cbn;
    destruct (py_len _) as [n|[]]; cbn; try reflexivity;
    split; try reflexivity; eexists; reflexivity ].

Lemma get_organizations_hands_back E token st :
  hands_back E (organizations_request token) "organizations"
    "Получено организаций: " st (get_organizations E token st).
Proof. unfold get_organizations. handed_back. Qed.

Lemma get_sections_hands_back E token ids sch rev st :
  hands_back E (sections_request token ids sch rev) "restaurantSections"
    "Получено секций ресторанов: " st
    (get_available_restaurant_sections E token ids sch rev st).
Proof. unfold get_available_restaurant_sections. handed_back. Qed.

Lemma get_payment_types_hands_back E token ids st :
  hands_back E (payment_types_request token ids) "paymentTypes"
    "Получено типов оплаты: " st (get_payment_types E token ids st).
Proof. unfold get_payment_types. handed_back. Qed.

(** X6.  On an answered request, [get_organizations],
    [get_available_restaurant_sections] and [get_payment_types] hand back
    the value under their key exactly as the service sent it, in the
    service's order and unfiltered, and log its length; that holds for any
    value that has a length, a list as well as a string or an object.  A
    value without a length ([null], a number, a boolean) and a body that is
    no object make them log and print an error and return the empty list. *)
Theorem lookups_hand_back_the_answer E token ids sch rev st :
  hands_back E (organizations_request token) "organizations"
    "Получено организаций: " st (get_organizations E token st) /\
  hands_back E (sections_request token ids sch rev) "restaurantSections"
    "Получено секций ресторанов: " st
    (get_available_restaurant_sections E token ids sch rev st) /\
  hands_back E (payment_types_request token ids) "paymentTypes"
    "Получено типов оплаты: " st (get_payment_types E token ids st).
Proof.
  split; [apply get_organizations_hands_back|].
  split; [apply get_sections_hands_back | apply get_payment_types_hands_back].
Qed.

Lemma lookups_hand_back_witness :
  get_payment_types Demo.env (PStr "T") (PList [PStr "org-1"]) (Demo.keyboard [])
  = {| value := Ok (field "paymentTypes" (PList []) Demo.payment_types);
       after := Demo.keyboard [];
       events := [Http (payment_types_request (PStr "T") (PList [PStr "org-1"]));
                  LogInfo [Lit "Получено типов оплаты: "; Fmt (PInt 2)]] |}.
Proof.
  exact (proj2 (proj2 (proj2 (lookups_hand_back_the_answer Demo.env (PStr "T")
           (PList [PStr "org-1"]) (PBool false) (PInt 0) (Demo.keyboard [])))
           Demo.payment_types
           (ex_intro _ _ (conj eq_refl (conj eq_refl eq_refl))))
         eq_refl).
Defined.

(** A [null] under the key is a failure, a missing key an empty answer. *)
Example null_is_a_failure_and_a_missing_key_is_not :
  let null := Demo.env_with (fun _ => Demo.ok (PDict [("organizations", PNone)])) in
  let missing := Demo.env_with (fun _ => Demo.ok (PDict [])) in
  value (get_organizations null (PStr "T") (Demo.keyboard [])) = Ok (PList []) /\
  List.length (logged_errors
    (events (get_organizations null (PStr "T") (Demo.keyboard [])))) = 1%nat /\
  value (get_organizations missing (PStr "T") (Demo.keyboard [])) = Ok (PList []) /\
  logged_errors
    (events (get_organizations missing (PStr "T") (Demo.keyboard []))) = [].
Proof. repeat split; vm_compute; reflexivity. Qed.

(** The length in the log is [len] of the value, which for a string counts
    its characters: the four letters of a Cyrillic word, not the eight bytes
    of their encoding. *)
Example logged_length_counts_characters :
  let E := Demo.env_with (fun _ => Demo.ok (PDict [("organizations", PStr "Кафе")])) in
  get_organizations E (PStr "T") (Demo.keyboard []) =
  {| value := Ok (PStr "Кафе");
     after := Demo.keyboard [];
     events := [Http (organizations_request (PStr "T"));
                LogInfo [Lit "Получено организаций: "; Fmt (PInt 4)]] |}.
Proof. vm_compute. reflexivity. Qed.

(** ** The token *)



(** ** Listings *)







(** ** The shape of the terminal groups *)









(** ** The numbering of the tables *)

















(** ** A choice and the lookup after it *)







(** ** The payment type entered by hand *)

Lemma main_customer_submits_with E Q token org tg tbl pt :
  (forall order_id position_id name phone product price qty sum,
      Q (order_payload order_id position_id org tg tbl name phone product
           price qty pt sum)) ->
  emits_only (submits Q) (main_customer E token org tg tbl pt).
Proof.
  intros HQ. unfold main_customer.
  assert (forall name phone, emits_only (submits Q)
            (main_product E token org tg tbl pt name phone))
    by (intros; apply main_product_submits; intros; apply HQ).
  emits_with not_an_order.
Qed.

(** X12.  When the payment-types lookup returns a value Python takes for
    false (a failure or an empty list), the operator is asked for the
    payment type's identifier, and whatever is typed, a blank line included,
    goes into the document as [paymentTypeId] unchecked. *)
Theorem manual_payment_type_is_taken_as_typed E token org tg tbl v s rest n :
  let st := {| stdin := s :: rest; drawn := n |} in
  let lookup := get_payment_types E token (PList [org]) st in
  value lookup = Ok v ->
  truthy v = false ->
  let run := main_payment_types E token org tg tbl st in
  let next := main_customer E token org tg tbl (PStr s)
                {| stdin := rest; drawn := n |} in
  value run = value next /\
  after run = after next /\
  (exists notice,
      events run =
      events lookup ++
      Print notice :: Input manual_payment_type_prompt (Some s) :: events next) /\
  Forall (fun body => payment_field "paymentTypeId" body = Some (PStr s))
    (documents (events run)).
Proof.
  intros st lookup Hv Hf run next. subst st lookup run next.
  unfold main_payment_types. rewrite (bind_ok _ _ _ _ Hv).
  destruct (get_payment_types_once E token (PList [org])
              {| stdin := s :: rest; drawn := n |}) as [Hr ->].
  rewrite Hf, bind_print, bind_input. cbn [value after events].
  repeat split.
  - eexists. reflexivity.
  - rewrite documents_app. apply Forall_app. split.
    + unfold documents. rewrite Hr. cbn. constructor.
    + do 2 (rewrite documents_cons_offline by exact I).
      apply submits_documents, main_customer_submits_with. reflexivity.
Qed.

Lemma manual_payment_type_witness :
  let E := Demo.env_with
             (Demo.service (Demo.ok (PDict [("token", PStr "T")]))
                (Demo.ok Demo.terminal_groups) (Demo.ok Demo.sections)
                (Demo.ok (PDict [("paymentTypes", PList [])]))
                (Demo.ok Demo.created)) in
  Forall (fun body => payment_field "paymentTypeId" body = Some (PStr "pt-x"))
    (documents (events
       (main_payment_types E (PStr "T") (PStr "org-1") (PStr "tg-A") (PStr "t-1")
          (Demo.keyboard ["pt-x"; "Ann"; ""; "p-1"; "10.0"; "2.0"; ""])))).
Proof.
  exact (proj2 (proj2 (proj2 (manual_payment_type_is_taken_as_typed
           (Demo.env_with
              (Demo.service (Demo.ok (PDict [("token", PStr "T")]))
                 (Demo.ok Demo.terminal_groups) (Demo.ok Demo.sections)
                 (Demo.ok (PDict [("paymentTypes", PList [])]))
                 (Demo.ok Demo.created)))
           (PStr "T") (PStr "org-1") (PStr "tg-A") (PStr "t-1") (PList [])
           "pt-x" ["Ann"; ""; "p-1"; "10.0"; "2.0"; ""] 0 eq_refl eq_refl)))).
Defined.

(** ** The customer, the product and the sum *)

(** X13.  A customer name that is blank (empty or only white space) is
    replaced by "Guest"; any other name goes into the document exactly as
    typed, surrounding white space included. *)
Theorem blank_customer_name_becomes_guest E token org tg tbl pt name phone rest n :
  Forall (fun body =>
            customer_name_of body =
            Some (PStr (if nonblank name then name else "Guest")))
    (documents (events (main_customer E token org tg tbl pt
                          {| stdin := name :: phone :: rest; drawn := n |}))).
Proof.
  unfold main_customer. rewrite bind_input. cbn [events].
  rewrite documents_cons_offline by exact I.
  rewrite bind_input. cbn [events].
  rewrite documents_cons_offline by exact I.
  apply submits_documents, main_product_submits.
  intros. destruct (nonblank name); reflexivity.
Qed.

(** The cases on a complete run: a name of blanks, a name that is one
    no-break space (U+00A0, white space to [str.strip] as well), and a name
    with blanks around it. *)
Example guest_and_padded_name :
  map customer_name_of
    (documents (events (main Demo.env
       (Demo.keyboard ["1"; "1"; "1"; "1"; "  "; ""; "p-1"; "10.0"; "2.0"; ""]))))
  = [Some (PStr "Guest")] /\
  map customer_name_of
    (documents (events (main Demo.env
       (Demo.keyboard ["1"; "1"; "1"; "1"; Demo.nbsp; ""; "p-1"; "10.0"; "2.0"; ""]))))
  = [Some (PStr "Guest")] /\
  map customer_name_of
    (documents (events (main Demo.env
       (Demo.keyboard ["1"; "1"; "1"; "1"; " Ann "; ""; "p-1"; "10.0"; "2.0"; ""]))))
  = [Some (PStr " Ann ")].
Proof. repeat split; vm_compute; reflexivity. Qed.

(** The four blank tests of [main] (lines 358, 376, 384, 398) use
    [str.strip], to which a no-break space is white space.  Answered with
    one, the payment-type prompt takes the first type without the notice of
    line 366, the product prompt ends the run before any order is sent, and
    the sum prompt falls back on price times quantity without the notice of
    line 402. *)
Example no_break_space_is_blank :
  let type_left_blank := events (main Demo.env
    (Demo.keyboard ["1"; "1"; "1"; Demo.nbsp; "Ann"; ""; "p-1"; "10.0"; "2.0"; ""])) in
  let product_left_blank := events (main Demo.env
    (Demo.keyboard ["1"; "1"; "1"; "1"; "Ann"; ""; Demo.nbsp; "10.0"; "2.0"; ""])) in
  let sum_left_blank := events (main Demo.env
    (Demo.keyboard ["1"; "1"; "1"; "1"; "Ann"; ""; "p-1"; "10.0"; "2.0"; Demo.nbsp])) in
  map (payment_field "paymentTypeId") (documents type_left_blank) =
    [Some (PStr "pt-cash")] /\
  says "Введено некорректное значение, будет использован первый тип оплаты."
    type_left_blank = false /\
  documents product_left_blank = [] /\
  says "productId обязателен для добавления позиции в заказ."
    product_left_blank = true /\
  map (payment_field "sum") (documents sum_left_blank) = [Some (PFloat 20)] /\
  says "Некорректная сумма. Будет рассчитана автоматически."
    sum_left_blank = false.
Proof. repeat split; vm_compute; reflexivity. Qed.

(** A blank product identifier ends the run at once: the price is not
    asked for, nothing is requested, and the rest of the operator's input is
    left untouched. *)
Lemma blank_product_ends_the_run
    E token org tg tbl pt name phone product rest n :
  nonblank product = false ->
  main_product E token org tg tbl pt name phone
    {| stdin := product :: rest; drawn := n |} =
  {| value := Ok tt;
     after := {| stdin := rest; drawn := n |};
     events :=
       [Input (nl ++ "Введите UUID товара (productId): ") (Some product);
        Print [Lit "productId обязателен для добавления позиции в заказ."]] |}.
Proof.
  intros Hb. unfold main_product. rewrite bind_input, Hb. reflexivity.
Qed.

Lemma blank_product_witness :
  main_product Demo.env (PStr "T") (PStr "org-1") (PStr "tg-A") (PStr "t-1")
    (PStr "pt-cash") "Ann" "" (Demo.keyboard ["  "; "10.0"]) =
  {| value := Ok tt;
     after := Demo.keyboard ["10.0"];
     events :=
       [Input (nl ++ "Введите UUID товара (productId): ") (Some "  ");
        Print [Lit "productId обязателен для добавления позиции в заказ."]] |}.
Proof.
  exact (blank_product_ends_the_run Demo.env (PStr "T") (PStr "org-1")
           (PStr "tg-A") (PStr "t-1") (PStr "pt-cash") "Ann" "" "  " ["10.0"] 0
           eq_refl).
Defined.

(** X14.  A payment sum the operator enters and [float] parses is used as
    it is: the one document submitted carries that sum, whatever the price
    and the quantity are, with no comparison to their product and no check
    of its sign. *)
Theorem entered_payment_sum_is_used
    E token org tg tbl pt name phone product price qty s x rest n :
  nonblank s = true ->
  py_float E s = Some x ->
  map (payment_field "sum")
    (documents (events
       (main_payment_sum E token org tg tbl pt name phone product price qty
          {| stdin := s :: rest; drawn := n |}))) =
  [Some (PFloat x)].
Proof.
  intros Hb Hs. rewrite main_payment_sum_documents. unfold settled_sum.
  now rewrite Hb, Hs.
Qed.

Lemma entered_payment_sum_witness :
  map (payment_field "sum")
    (documents (events
       (main_payment_sum Demo.env (PStr "T") (PStr "org-1") (PStr "tg-A")
          (PStr "t-1") (PStr "pt-cash") "Ann" "" "p-1" 10 2
          (Demo.keyboard ["-3.5"])))) =
  [Some (PFloat (-3.5))].
Proof.
  exact (entered_payment_sum_is_used Demo.env (PStr "T") (PStr "org-1")
           (PStr "tg-A") (PStr "t-1") (PStr "pt-cash") "Ann" "" "p-1" 10 2
           "-3.5" (-3.5)%float [] 0 eq_refl eq_refl).
Defined.

(** ** What the operator is told at the end *)

Lemma main_submit_eq E token org tg tbl pt name phone product price qty sum st :
  let sent := create_order E token org tg tbl (PStr name) (PStr phone)
                (PStr product) (PFloat price) (PFloat qty) pt (PFloat sum) st in
  forall result,
    value sent = Ok result ->
    main_submit E token org tg tbl pt name phone product price qty sum st =
    {| value := Ok tt;
       after := after sent;
       events :=
         Print [Lit (nl ++ "==== ОТПРАВЛЯЕМ ЗАПРОС НА СОЗДАНИЕ ЗАКАЗА ====")]
         :: events sent ++
            [if truthy result then order_created else order_not_created] |}.
Proof.
  intros sent result Hv. subst sent. unfold main_submit.
  rewrite bind_print. rewrite (bind_ok _ _ _ _ Hv).
  cbn [value after events]. now destruct (truthy result).
Qed.

(** X15.  After the submission [main] tells the operator that the order was
    created exactly when [create_order] returned a value Python takes for
    true.  So a failed request is reported as not created, and so is a
    request the service answered with an empty object, an empty list or
    [null]. *)
Theorem outcome_follows_the_returned_body
    E token org tg tbl pt name phone product price qty sum st :
  let run := main_submit E token org tg tbl pt name phone product price qty
               sum st in
  let rq := order_request token
       (order_payload (PStr (uuid4 E (drawn st))) (PStr (uuid4 E (S (drawn st))))
          org tg tbl (PStr name) (PStr phone) (PStr product) (PFloat price)
          (PFloat qty) pt (PFloat sum)) in
  (forall data,
      answers_with E rq data ->
      value run = Ok tt /\
      exists t,
        events run =
        t ++ [if truthy data then order_created else order_not_created]) /\
  (failing E rq ->
      value run = Ok tt /\ exists t, events run = t ++ [order_not_created]).
Proof.
  intros run rq. subst run rq. split.
  - intros data Ha.
    rewrite (main_submit_eq E token org tg tbl pt name phone product price qty
               sum st data (create_order_answered _ _ _ _ _ _ _ _ _ _ _ _ _ _ Ha)).
    split; [reflexivity|]. eexists (_ :: _). reflexivity.
  - intros Hf.
    destruct (create_order_failure E token org tg tbl (PStr name) (PStr phone)
                (PStr product) (PFloat price) (PFloat qty) pt (PFloat sum) st Hf)
      as [Hv _].
    rewrite (main_submit_eq E token org tg tbl pt name phone product price qty
               sum st _ Hv).
    split; [reflexivity|]. eexists (_ :: _). reflexivity.
Qed.

Lemma outcome_witness :
  let E := Demo.env_with (fun _ => Demo.ok (PDict [])) in
  let run := main_submit E (PStr "T") (PStr "org-1") (PStr "tg-A") (PStr "t-1")
               (PStr "pt-cash") "Ann" "" "p-1" 10 2 20 (Demo.keyboard []) in
  value run = Ok tt /\ exists t, events run = t ++ [order_not_created].
Proof.
  exact (proj1 (outcome_follows_the_returned_body
                  (Demo.env_with (fun _ => Demo.ok (PDict [])))
                  (PStr "T") (PStr "org-1") (PStr "tg-A") (PStr "t-1")
                  (PStr "pt-cash") "Ann" "" "p-1" 10 2 20 (Demo.keyboard []))
               (PDict [])
               (ex_intro _ _ (conj eq_refl (conj eq_refl eq_refl)))).
Defined.

(** ** The payment type picked from the list *)


